(** * The WebGL compositing renderer of video-blur-react

    A shallow embedding of [WebGLRenderer] (the class that follows the
    configuration defaults in [src/config/defaults.ts]): its two fragment
    shaders, the part of the WebGL machine its methods drive, and the
    methods [createColorTexture], [updateBackgroundIfNeeded], [render] and
    [close].

    Conventions of the embedding.
    - Shader arithmetic is carried out over exact rationals ([Q]); the
      rounding of [mediump float] is not represented.  Equality of shader
      values is [Qeq] ([==]).
    - A texture image is a field over normalised texture coordinates:
      sampling is function application, so filtering and clamp-to-edge
      addressing are part of the field, and the texel grid is not
      represented.  What is written into an RGBA/UNSIGNED_BYTE texture or
      into the drawing buffer is held as unsigned normalised 8-bit values:
      each component is clamped to [0, 1] and rounded to a multiple of
      1/255 ([GL.rgba8]).
    - A sampler uniform holds a texture-unit index, as in GLSL; the unit is
      resolved to the image bound to it when a draw call is issued. *)

From Stdlib Require Import QArith Qabs Qpower Qminmax Qround Lqa ZArith String List Lia Bool.
From Stdlib Require Import DecimalString.
From stdpp Require Import gmap.

Local Open Scope Q_scope.

(** ** GLSL values and built-in functions *)

Module GLSL.

Record vec2 : Type := Vec2 { vx : Q; vy : Q }.
Record vec4 : Type := Vec4 { cr : Q; cg : Q; cb : Q; ca : Q }.

Definition v2add (a b : vec2) : vec2 := Vec2 (vx a + vx b) (vy a + vy b).
Definition v2mul (a b : vec2) : vec2 := Vec2 (vx a * vx b) (vy a * vy b).
Definition v2scale (a : vec2) (k : Q) : vec2 := Vec2 (vx a * k) (vy a * k).
(** [1.0 / v] for a [vec2] divides component-wise. *)
Definition v2recip (a : vec2) : vec2 := Vec2 (1 / vx a) (1 / vy a).

Definition v4zero : vec4 := Vec4 0 0 0 0.
Definition v4add (a b : vec4) : vec4 :=
  Vec4 (cr a + cr b) (cg a + cg b) (cb a + cb b) (ca a + ca b).
Definition v4scale (a : vec4) (k : Q) : vec4 :=
  Vec4 (cr a * k) (cg a * k) (cb a * k) (ca a * k).
Definition v4div (a : vec4) (k : Q) : vec4 :=
  Vec4 (cr a / k) (cg a / k) (cb a / k) (ca a / k).

(** Component-wise equality of colours up to [Qeq]. *)
Definition v4eq (a b : vec4) : Prop :=
  cr a == cr b /\ cg a == cg b /\ cb a == cb b /\ ca a == ca b.

(** The comparisons [a < b] and [a > b] of GLSL, as booleans. *)
Definition Qltb (a b : Q) : bool := negb (Qle_bool b a).
Definition Qgtb (a b : Q) : bool := Qltb b a.

(** [clamp], [mix] and [smoothstep] are GLSL built-ins; they follow the
    reference formulas of the GLSL ES specification.  GLSL leaves
    [smoothstep] undefined when [edge0 >= edge1]; the definition evaluates
    the reference formula there as the hardware does.  With equal edges
    the quotient is an infinity, which [clamp] brings to 0 below the edge
    and to 1 above it, a step (at the edge itself, where the quotient is
    indeterminate, 0 is taken); with [edge0 > edge1] the formula is a
    falling ramp. *)
Definition clamp (x lo hi : Q) : Q := Qmin (Qmax x lo) hi.

Definition mix (x y a : Q) : Q := x * (1 - a) + y * a.

Definition mix4 (x y : vec4) (a : Q) : vec4 :=
  Vec4 (mix (cr x) (cr y) a) (mix (cg x) (cg y) a)
       (mix (cb x) (cb y) a) (mix (ca x) (ca y) a).

Definition smoothstep (edge0 edge1 x : Q) : Q :=
  let t :=
    if Qeq_bool edge0 edge1
    then (if Qltb edge0 x then 1 else 0)
    else clamp ((x - edge0) / (edge1 - edge0)) 0 1 in
  t * t * (3 - 2 * t).

(** A texture image, and the images bound to the texture units at a draw. *)
Definition image : Type := vec2 -> vec4.
Definition sampler2D : Type := Z.
Definition textureUnits : Type := Z -> image.

Definition texture2D (tu : textureUnits) (s : sampler2D) (coord : vec2) : vec4 :=
  tu s coord.

End GLSL.

Import GLSL.

(** ** The state-update fragment shader *)

Module StateUpdateShader.

Record Uniforms : Type := {
  u_categoryTexture : sampler2D;
  u_confidenceTexture : sampler2D;
  u_prevStateTexture : sampler2D;
  u_smoothingFactor : Q;
  u_smoothstepMin : Q;
  u_smoothstepMax : Q;
  u_selfieModel : Z;
  u_resolution : vec2;
  u_stateBlurRadius : Q
}.

(** Spatial blur helper: 3x3 Gaussian-weighted sample of a texture. *)
Definition sampleBlurred (tu : textureUnits) (u : Uniforms)
    (tex : sampler2D) (coord : vec2) (radius : Q) : Q :=
  let ts := v2recip (u_resolution u) in
  let s := radius in
  ( cr (texture2D tu tex (v2add coord (v2mul (Vec2 (- s) (- s)) ts))) * 1 +
    cr (texture2D tu tex (v2add coord (v2mul (Vec2 0 (- s)) ts))) * 2 +
    cr (texture2D tu tex (v2add coord (v2mul (Vec2 s (- s)) ts))) * 1 +
    cr (texture2D tu tex (v2add coord (v2mul (Vec2 (- s) 0) ts))) * 2 +
    cr (texture2D tu tex coord) * 4 +
    cr (texture2D tu tex (v2add coord (v2mul (Vec2 s 0) ts))) * 2 +
    cr (texture2D tu tex (v2add coord (v2mul (Vec2 (- s) s) ts))) * 1 +
    cr (texture2D tu tex (v2add coord (v2mul (Vec2 0 s) ts))) * 2 +
    cr (texture2D tu tex (v2add coord (v2mul (Vec2 s s) ts))) * 1
  ) / 16.

(** The raw category and confidence after the polarity switch
    ([u_selfieModel == 1]) and after the foreground pinning
    ([categoryValue > 0.0]). *)
Definition polarity (u : Uniforms) (cc : Q * Q) : Q * Q :=
  if (u_selfieModel u =? 1)%Z then (1 - fst cc, 1 - snd cc) else cc.

Definition pinForeground (cc : Q * Q) : Q * Q :=
  if Qgtb (fst cc) 0 then (1, 1 - snd cc) else cc.

(** Asymmetric smoothing: harder to transition FROM person TO background. *)
Definition asymmetric (categoryValue prevCategoryValue alpha : Q) : Q :=
  if Qltb categoryValue 0.5 && Qgtb prevCategoryValue 0.3 then
    let stickiness := smoothstep 0.3 0.8 prevCategoryValue in
    alpha * mix 0.7 0.25 stickiness
  else alpha.

(** The body of [main] once the three textures have been sampled. *)
Definition newCategoryValue (u : Uniforms)
    (categoryValue confidenceValue prevCategoryValue : Q) : Q :=
  let cc := pinForeground (polarity u (categoryValue, confidenceValue)) in
  let categoryValue := fst cc in
  let confidenceValue := snd cc in
  let nonLinearConfidence :=
    smoothstep (u_smoothstepMin u) (u_smoothstepMax u) confidenceValue in
  let alpha := u_smoothingFactor u * nonLinearConfidence in
  let alpha := asymmetric categoryValue prevCategoryValue alpha in
  alpha * categoryValue + (1 - alpha) * prevCategoryValue.

Definition main (tu : textureUnits) (u : Uniforms) (v_texCoord : vec2) : vec4 :=
  let prevCoord := Vec2 (vx v_texCoord) (1 - vy v_texCoord) in
  let categoryValue := cr (texture2D tu (u_categoryTexture u) v_texCoord) in
  let confidenceValue := cr (texture2D tu (u_confidenceTexture u) v_texCoord) in
  let prevCategoryValue :=
    sampleBlurred tu u (u_prevStateTexture u) prevCoord (u_stateBlurRadius u) in
  Vec4 (newCategoryValue u categoryValue confidenceValue prevCategoryValue) 0 0 0.

End StateUpdateShader.

(** ** The blending fragment shader *)

Module BlendShader.

Record Uniforms : Type := {
  u_frameTexture : sampler2D;
  u_currentStateTexture : sampler2D;
  u_backgroundTexture : sampler2D;
  u_bgImageDimensions : vec2;
  u_canvasDimensions : vec2;
  u_borderSmooth : Q;
  u_bgBlur : Q;
  u_bgBlurRadius : Q;
  u_enabled : Z;
  u_blendSpatialBlur : Q;
  u_vbgSmoothstepMin : Q;
  u_vbgSmoothstepMax : Q
}.

Definition PI : Q := 3.141592653589793.

(** The 3x3 weighted sample of the current state that both effect branches
    of [main] compute (the source writes it out twice). *)
Definition blurredState (tu : textureUnits) (u : Uniforms)
    (categoryCoord texelSize : vec2) : Q :=
  let s := u_blendSpatialBlur u in
  let st := u_currentStateTexture u in
  let categoryValue :=
    cr (texture2D tu st (v2add categoryCoord (v2mul (Vec2 (- s) (- s)) texelSize))) * 1 +
    cr (texture2D tu st (v2add categoryCoord (v2mul (Vec2 0 (- s)) texelSize))) * 2 +
    cr (texture2D tu st (v2add categoryCoord (v2mul (Vec2 s (- s)) texelSize))) * 1 +
    cr (texture2D tu st (v2add categoryCoord (v2mul (Vec2 (- s) 0) texelSize))) * 2 +
    cr (texture2D tu st categoryCoord) * 4 +
    cr (texture2D tu st (v2add categoryCoord (v2mul (Vec2 s 0) texelSize))) * 2 +
    cr (texture2D tu st (v2add categoryCoord (v2mul (Vec2 (- s) s) texelSize))) * 1 +
    cr (texture2D tu st (v2add categoryCoord (v2mul (Vec2 0 s) texelSize))) * 2 +
    cr (texture2D tu st (v2add categoryCoord (v2mul (Vec2 s s) texelSize))) * 1 in
  categoryValue / 16.

(** The aspect-correcting background coordinate of the virtual-background
    branch. *)
Definition bgTexCoord (u : Uniforms) (v_texCoord : vec2) : vec2 :=
  let canvasAspect := vx (u_canvasDimensions u) / vy (u_canvasDimensions u) in
  let bgAspect := vx (u_bgImageDimensions u) / vy (u_bgImageDimensions u) in
  let '(scaleX, scaleY, offsetX, offsetY) :=
    if Qltb canvasAspect bgAspect then
      let scaleX := bgAspect / canvasAspect in
      (scaleX, 1, (1 - scaleX) / 2, 0)
    else
      let scaleY := canvasAspect / bgAspect in
      (1, scaleY, 0, (1 - scaleY) / 2) in
  Vec2 ((vx v_texCoord - offsetX) / scaleX) ((vy v_texCoord - offsetY) / scaleY).

Section Transcendental.

(** [exp], [cos] and [sin] are GLSL built-ins over floats; the shader is
    parameterised by them. *)
Variables glsl_exp glsl_cos glsl_sin : Q -> Q.

Definition gaussianWeight (offset sigma : Q) : Q :=
  glsl_exp (- (offset * offset) / (2 * sigma * sigma)).

Definition getMixedFragColor (tu : textureUnits) (u : Uniforms)
    (v_texCoord bgTexCoord categoryCoord offset : vec2) : vec4 :=
  let backgroundColor := texture2D tu (u_backgroundTexture u) (v2add bgTexCoord offset) in
  let frameColor := texture2D tu (u_frameTexture u) (v2add v_texCoord offset) in
  let categoryValue :=
    cr (texture2D tu (u_currentStateTexture u) (v2add categoryCoord offset)) in
  mix4 backgroundColor frameColor categoryValue.

(** [for (int i = -10; i <= 10; i++)] *)
Definition radialSteps : list Z :=
  map (fun k => (Z.of_nat k - 10)%Z) (seq 0 21).

(** [for (float angle = 0.0; angle <= 2.0 * PI; angle += PI / 12.0)]: the
    loop runs while the condition holds; 25 turns in exact arithmetic. *)
Fixpoint angleLoop {A : Type} (fuel : nat) (angle : Q)
    (body : Q -> A -> A) (acc : A) : A :=
  match fuel with
  | O => acc
  | S fuel' =>
      if Qle_bool angle (2 * PI)
      then angleLoop fuel' (angle + PI / 12) body (body angle acc)
      else acc
  end.

Definition blurColor (tu : textureUnits) (u : Uniforms) (v_texCoord : vec2)
    (blur radius : Q) (mixed : bool) : vec4 :=
  let categoryCoord := Vec2 (vx v_texCoord) (1 - vy v_texCoord) in
  let texelSize := v2recip (u_canvasDimensions u) in
  let '(blurredColor, totalWeight) :=
    angleLoop 32 0
      (fun angle acc =>
         let direction := Vec2 (glsl_cos angle) (glsl_sin angle) in
         fold_left
           (fun (acc : vec4 * Q) (i : Z) =>
              let offset := inject_Z i * (radius / 10) in
              let weight := gaussianWeight offset blur in
              let v_offset := v2scale (v2mul direction texelSize) offset in
              let sample :=
                if mixed
                then getMixedFragColor tu u v_texCoord v_texCoord categoryCoord v_offset
                else texture2D tu (u_frameTexture u) (v2add v_texCoord v_offset) in
              (v4add (fst acc) (v4scale sample weight), snd acc + weight))
           radialSteps acc)
      (v4zero, 0) in
  v4div blurredColor totalWeight.

Definition main (tu : textureUnits) (u : Uniforms) (v_texCoord : vec2) : vec4 :=
  if (u_enabled u =? 0)%Z then
    texture2D tu (u_frameTexture u) v_texCoord
  else
    let categoryCoord := Vec2 (vx v_texCoord) (1 - vy v_texCoord) in
    let texelSize := v2recip (u_canvasDimensions u) in
    if Qgtb (u_bgBlur u) 0 && Qgtb (u_bgBlurRadius u) 0 then
      (* Blur mode: spatial blur controlled by u_blendSpatialBlur *)
      let categoryValue := blurredState tu u categoryCoord texelSize in
      let softMask :=
        smoothstep (0 + u_borderSmooth u * 0.3) (1 - u_borderSmooth u * 0.3)
                   categoryValue in
      let blurred := blurColor tu u v_texCoord (u_bgBlur u) (u_bgBlurRadius u) false in
      let sharp := texture2D tu (u_frameTexture u) v_texCoord in
      mix4 blurred sharp softMask
    else
      (* Virtual bg mode: spatial blur + tight threshold controlled by uniforms *)
      let categoryValue := blurredState tu u categoryCoord texelSize in
      let softMask :=
        smoothstep (u_vbgSmoothstepMin u) (u_vbgSmoothstepMax u) categoryValue in
      let bgColor := texture2D tu (u_backgroundTexture u) (bgTexCoord u v_texCoord) in
      let fgColor := texture2D tu (u_frameTexture u) v_texCoord in
      mix4 bgColor fgColor softMask.

End Transcendental.

End BlendShader.

(** ** The part of the WebGL machine the renderer drives *)

Module GL.

(** The conversion of a colour component to the unsigned normalised 8-bit
    value that an RGBA/UNSIGNED_BYTE texel or the drawing buffer holds:
    clamped to [0, 1], scaled by 255 and rounded to the nearest integer
    (a tie goes up), and the value such a byte stands for. *)
Definition toByte (x : Q) : Z := Qfloor (clamp x 0 1 * 255 + (1 # 2)).
Definition fromByte (b : Z) : Q := inject_Z b / 255.

Definition rgba8 (c : vec4) : vec4 :=
  Vec4 (fromByte (toByte (cr c))) (fromByte (toByte (cg c)))
       (fromByte (toByte (cb c))) (fromByte (toByte (ca c))).

(** A drawing buffer without alpha channel reads as opaque. *)
Definition opaque (c : vec4) : vec4 := Vec4 (cr c) (cg c) (cb c) 1.

Record Texture : Type := { tex_width : Z; tex_height : Z; tex_image : image }.

(** A [WebGLTexture] handle: a texture this renderer created, by name; a
    texture owned by the segmentation collaborator, handed in with the
    content it has during the call; or the invalidated object that
    [createTexture] hands out once the context is lost. *)
Inductive WebGLTexture : Type :=
| Owned (name : positive)
| Foreign (t : Texture)
| Invalidated.

Inductive WebGLProgram : Type := StateUpdateProgram | BlendProgram.

(** What the canvas shows: nothing yet, the clear colour, or the last draw
    issued on it, kept with the uniforms and texture bindings it ran with. *)
Inductive Drawing : Type :=
| Blank
| Cleared
| StateDraw (tu : textureUnits) (u : StateUpdateShader.Uniforms)
| BlendDraw (tu : textureUnits) (u : BlendShader.Uniforms).

Record Canvas : Type := { width : Z; height : Z; drawing : Drawing }.

Inductive StateLocation : Type :=
| S_categoryTexture | S_confidenceTexture | S_prevStateTexture
| S_smoothingFactor | S_smoothstepMin | S_smoothstepMax
| S_selfieModel | S_resolution | S_stateBlurRadius.

Inductive BlendLocation : Type :=
| B_frameTexture | B_currentStateTexture | B_backgroundTexture
| B_bgImageDimensions | B_canvasDimensions | B_borderSmooth
| B_bgBlur | B_bgBlurRadius | B_enabled | B_blendSpatialBlur
| B_vbgSmoothstepMin | B_vbgSmoothstepMax.

Inductive WebGLUniformLocation : Type :=
| OfState (l : StateLocation)
| OfBlend (l : BlendLocation).

(** [WebGLContextAttributes], as passed to [getContext]. *)
Record WebGLContextAttributes : Type := {
  alpha : bool;
  antialias : bool;
  desynchronized : bool;
  preserveDrawingBuffer : bool
}.

Record Context : Type := {
  attributes : WebGLContextAttributes;
  contextLost : bool;
  nextName : positive;
  textures : gmap positive Texture;
  activeUnit : Z;
  bindings : gmap Z WebGLTexture;
  program : option WebGLProgram;
  stateUniforms : StateUpdateShader.Uniforms;
  blendUniforms : BlendShader.Uniforms;
  framebufferBound : bool;
  attachment : option WebGLTexture;
  canvas : Canvas;
  texturesCreated : nat;
  texturesDeleted : nat;
  draws : list WebGLProgram
}.

(** Field updates. *)
Definition withStore (n : positive) (ts : gmap positive Texture)
    (created deleted : nat) (c : Context) : Context :=
  {| attributes := attributes c;
     contextLost := contextLost c; nextName := n; textures := ts;
     activeUnit := activeUnit c; bindings := bindings c; program := program c;
     stateUniforms := stateUniforms c; blendUniforms := blendUniforms c;
     framebufferBound := framebufferBound c; attachment := attachment c;
     canvas := canvas c; texturesCreated := created;
     texturesDeleted := deleted; draws := draws c |}.

Definition withTextures (ts : gmap positive Texture) (c : Context) : Context :=
  withStore (nextName c) ts (texturesCreated c) (texturesDeleted c) c.

Definition withUnits (a : Z) (b : gmap Z WebGLTexture) (c : Context) : Context :=
  {| attributes := attributes c;
     contextLost := contextLost c; nextName := nextName c; textures := textures c;
     activeUnit := a; bindings := b; program := program c;
     stateUniforms := stateUniforms c; blendUniforms := blendUniforms c;
     framebufferBound := framebufferBound c; attachment := attachment c;
     canvas := canvas c; texturesCreated := texturesCreated c;
     texturesDeleted := texturesDeleted c; draws := draws c |}.

Definition withPrograms (p : option WebGLProgram)
    (su : StateUpdateShader.Uniforms) (bu : BlendShader.Uniforms)
    (c : Context) : Context :=
  {| attributes := attributes c;
     contextLost := contextLost c; nextName := nextName c; textures := textures c;
     activeUnit := activeUnit c; bindings := bindings c; program := p;
     stateUniforms := su; blendUniforms := bu;
     framebufferBound := framebufferBound c; attachment := attachment c;
     canvas := canvas c; texturesCreated := texturesCreated c;
     texturesDeleted := texturesDeleted c; draws := draws c |}.

Definition withFramebuffer (b : bool) (a : option WebGLTexture)
    (c : Context) : Context :=
  {| attributes := attributes c;
     contextLost := contextLost c; nextName := nextName c; textures := textures c;
     activeUnit := activeUnit c; bindings := bindings c; program := program c;
     stateUniforms := stateUniforms c; blendUniforms := blendUniforms c;
     framebufferBound := b; attachment := a;
     canvas := canvas c; texturesCreated := texturesCreated c;
     texturesDeleted := texturesDeleted c; draws := draws c |}.

Definition withCanvas (cv : Canvas) (c : Context) : Context :=
  {| attributes := attributes c;
     contextLost := contextLost c; nextName := nextName c; textures := textures c;
     activeUnit := activeUnit c; bindings := bindings c; program := program c;
     stateUniforms := stateUniforms c; blendUniforms := blendUniforms c;
     framebufferBound := framebufferBound c; attachment := attachment c;
     canvas := cv; texturesCreated := texturesCreated c;
     texturesDeleted := texturesDeleted c; draws := draws c |}.

Definition withDraws (d : list WebGLProgram) (c : Context) : Context :=
  {| attributes := attributes c;
     contextLost := contextLost c; nextName := nextName c; textures := textures c;
     activeUnit := activeUnit c; bindings := bindings c; program := program c;
     stateUniforms := stateUniforms c; blendUniforms := blendUniforms c;
     framebufferBound := framebufferBound c; attachment := attachment c;
     canvas := canvas c; texturesCreated := texturesCreated c;
     texturesDeleted := texturesDeleted c; draws := d |}.

Definition withContextLost (b : bool) (c : Context) : Context :=
  {| attributes := attributes c;
     contextLost := b; nextName := nextName c; textures := textures c;
     activeUnit := activeUnit c; bindings := bindings c; program := program c;
     stateUniforms := stateUniforms c; blendUniforms := blendUniforms c;
     framebufferBound := framebufferBound c; attachment := attachment c;
     canvas := canvas c; texturesCreated := texturesCreated c;
     texturesDeleted := texturesDeleted c; draws := draws c |}.

(** Every command is ignored once the context is lost. *)
Definition command (f : Context -> Context) (c : Context) : Context :=
  if contextLost c then c else f c.

(** An incomplete or missing texture samples as opaque black. *)
Definition black : vec4 := Vec4 0 0 0 1.
Definition transparentBlack : vec4 := Vec4 0 0 0 0.

Definition imageOf (c : Context) (t : WebGLTexture) : image :=
  match t with
  | Owned n =>
      match textures c !! n with
      | Some tx => tex_image tx
      | None => fun _ => black
      end
  | Foreign tx => tex_image tx
  | Invalidated => fun _ => black
  end.

Definition boundImages (c : Context) : textureUnits :=
  fun unit =>
    match bindings c !! unit with
    | Some t => imageOf c t
    | None => fun _ => black
    end.

(** [gl.createTexture()]: a fresh texture object without image; once the
    context is lost, an invalidated object (not [null]) and no change to
    the context. *)
Definition createTexture (c : Context) : option WebGLTexture * Context :=
  if contextLost c then (Some Invalidated, c)
  else
    let n := nextName c in
    (Some (Owned n),
     withStore (Pos.succ n)
       (<[n := {| tex_width := 0; tex_height := 0; tex_image := fun _ => black |}]>
          (textures c))
       (S (texturesCreated c)) (texturesDeleted c) c).

(** [gl.deleteTexture(t)]; deleting [null], an invalidated object or a
    foreign handle that this store does not hold changes nothing. *)
Definition deleteTexture (t : option WebGLTexture) : Context -> Context :=
  command (fun c =>
    match t with
    | Some (Owned n) =>
        match textures c !! n with
        | Some _ =>
            withStore (nextName c) (delete n (textures c))
              (texturesCreated c) (S (texturesDeleted c)) c
        | None => c
        end
    | _ => c
    end).

(** [gl.activeTexture(gl.TEXTURE0 + i)] *)
Definition activeTexture (i : Z) : Context -> Context :=
  command (fun c => withUnits i (bindings c) c).

(** [gl.bindTexture(gl.TEXTURE_2D, t)]; binding an invalidated object is
    an error and changes nothing. *)
Definition bindTexture (t : option WebGLTexture) : Context -> Context :=
  command (fun c =>
    withUnits (activeUnit c)
      (match t with
       | Some Invalidated => bindings c
       | Some t => <[activeUnit c := t]> (bindings c)
       | None => delete (activeUnit c) (bindings c)
       end) c).

(** [gl.texImage2D] on the texture bound to the active unit; without such
    a texture of this store the call is an error and changes nothing. *)
Definition texImage2D (tx : Texture) : Context -> Context :=
  command (fun c =>
    match bindings c !! activeUnit c with
    | Some (Owned n) =>
        match textures c !! n with
        | Some _ => withTextures (<[n := tx]> (textures c)) c
        | None => c
        end
    | _ => c
    end).

(** The three shapes of [texImage2D] in the source: storage without data
    (zero-filled), one RGBA byte quadruple, and an image source. *)
Definition emptyPixels (w h : Z) : Texture :=
  {| tex_width := w; tex_height := h; tex_image := fun _ => transparentBlack |}.

Definition bytePixel (px : Z * Z * Z * Z) : Texture :=
  let '(r, g, b, a) := px in
  {| tex_width := 1; tex_height := 1;
     tex_image := fun _ => Vec4 (inject_Z r / 255) (inject_Z g / 255)
                                (inject_Z b / 255) (inject_Z a / 255) |}.

Definition useProgram (p : WebGLProgram) : Context -> Context :=
  command (fun c => withPrograms (Some p) (stateUniforms c) (blendUniforms c) c).

(** Uniform storage of the two programs, addressed by location. *)
Definition setStateInt (l : StateLocation) (v : Z)
    (u : StateUpdateShader.Uniforms) : StateUpdateShader.Uniforms :=
  let '(StateUpdateShader.Build_Uniforms cat conf prev sm lo hi selfie res rad) := u in
  match l with
  | S_categoryTexture => StateUpdateShader.Build_Uniforms v conf prev sm lo hi selfie res rad
  | S_confidenceTexture => StateUpdateShader.Build_Uniforms cat v prev sm lo hi selfie res rad
  | S_prevStateTexture => StateUpdateShader.Build_Uniforms cat conf v sm lo hi selfie res rad
  | S_selfieModel => StateUpdateShader.Build_Uniforms cat conf prev sm lo hi v res rad
  | _ => u
  end.

Definition setStateFloat (l : StateLocation) (v : Q)
    (u : StateUpdateShader.Uniforms) : StateUpdateShader.Uniforms :=
  let '(StateUpdateShader.Build_Uniforms cat conf prev sm lo hi selfie res rad) := u in
  match l with
  | S_smoothingFactor => StateUpdateShader.Build_Uniforms cat conf prev v lo hi selfie res rad
  | S_smoothstepMin => StateUpdateShader.Build_Uniforms cat conf prev sm v hi selfie res rad
  | S_smoothstepMax => StateUpdateShader.Build_Uniforms cat conf prev sm lo v selfie res rad
  | S_stateBlurRadius => StateUpdateShader.Build_Uniforms cat conf prev sm lo hi selfie res v
  | _ => u
  end.

Definition setStateVec2 (l : StateLocation) (v : vec2)
    (u : StateUpdateShader.Uniforms) : StateUpdateShader.Uniforms :=
  let '(StateUpdateShader.Build_Uniforms cat conf prev sm lo hi selfie res rad) := u in
  match l with
  | S_resolution => StateUpdateShader.Build_Uniforms cat conf prev sm lo hi selfie v rad
  | _ => u
  end.

Definition setBlendInt (l : BlendLocation) (v : Z)
    (u : BlendShader.Uniforms) : BlendShader.Uniforms :=
  let '(BlendShader.Build_Uniforms fr st bg bgd cvd bs bl br en sp lo hi) := u in
  match l with
  | B_frameTexture => BlendShader.Build_Uniforms v st bg bgd cvd bs bl br en sp lo hi
  | B_currentStateTexture => BlendShader.Build_Uniforms fr v bg bgd cvd bs bl br en sp lo hi
  | B_backgroundTexture => BlendShader.Build_Uniforms fr st v bgd cvd bs bl br en sp lo hi
  | B_enabled => BlendShader.Build_Uniforms fr st bg bgd cvd bs bl br v sp lo hi
  | _ => u
  end.

Definition setBlendFloat (l : BlendLocation) (v : Q)
    (u : BlendShader.Uniforms) : BlendShader.Uniforms :=
  let '(BlendShader.Build_Uniforms fr st bg bgd cvd bs bl br en sp lo hi) := u in
  match l with
  | B_borderSmooth => BlendShader.Build_Uniforms fr st bg bgd cvd v bl br en sp lo hi
  | B_bgBlur => BlendShader.Build_Uniforms fr st bg bgd cvd bs v br en sp lo hi
  | B_bgBlurRadius => BlendShader.Build_Uniforms fr st bg bgd cvd bs bl v en sp lo hi
  | B_blendSpatialBlur => BlendShader.Build_Uniforms fr st bg bgd cvd bs bl br en v lo hi
  | B_vbgSmoothstepMin => BlendShader.Build_Uniforms fr st bg bgd cvd bs bl br en sp v hi
  | B_vbgSmoothstepMax => BlendShader.Build_Uniforms fr st bg bgd cvd bs bl br en sp lo v
  | _ => u
  end.

Definition setBlendVec2 (l : BlendLocation) (v : vec2)
    (u : BlendShader.Uniforms) : BlendShader.Uniforms :=
  let '(BlendShader.Build_Uniforms fr st bg bgd cvd bs bl br en sp lo hi) := u in
  match l with
  | B_bgImageDimensions => BlendShader.Build_Uniforms fr st bg v cvd bs bl br en sp lo hi
  | B_canvasDimensions => BlendShader.Build_Uniforms fr st bg bgd v bs bl br en sp lo hi
  | _ => u
  end.

(** [gl.uniform1i], [gl.uniform1f], [gl.uniform2f]: they address the program
    in use; a location of another program is an error and changes
    nothing. *)
Definition uniform1i (loc : WebGLUniformLocation) (v : Z) : Context -> Context :=
  command (fun c =>
    match loc, program c with
    | OfState l, Some StateUpdateProgram =>
        withPrograms (program c) (setStateInt l v (stateUniforms c)) (blendUniforms c) c
    | OfBlend l, Some BlendProgram =>
        withPrograms (program c) (stateUniforms c) (setBlendInt l v (blendUniforms c)) c
    | _, _ => c
    end).

Definition uniform1f (loc : WebGLUniformLocation) (v : Q) : Context -> Context :=
  command (fun c =>
    match loc, program c with
    | OfState l, Some StateUpdateProgram =>
        withPrograms (program c) (setStateFloat l v (stateUniforms c)) (blendUniforms c) c
    | OfBlend l, Some BlendProgram =>
        withPrograms (program c) (stateUniforms c) (setBlendFloat l v (blendUniforms c)) c
    | _, _ => c
    end).

Definition uniform2f (loc : WebGLUniformLocation) (x y : Q) : Context -> Context :=
  command (fun c =>
    match loc, program c with
    | OfState l, Some StateUpdateProgram =>
        withPrograms (program c) (setStateVec2 l (Vec2 x y) (stateUniforms c))
          (blendUniforms c) c
    | OfBlend l, Some BlendProgram =>
        withPrograms (program c) (stateUniforms c)
          (setBlendVec2 l (Vec2 x y) (blendUniforms c)) c
    | _, _ => c
    end).

(** [gl.bindFramebuffer(gl.FRAMEBUFFER, fbo)] ([true]) or [null] ([false]);
    the renderer owns a single framebuffer object. *)
Definition bindFramebuffer (fbo : bool) : Context -> Context :=
  command (fun c => withFramebuffer fbo (attachment c) c).

(** [gl.framebufferTexture2D(.., COLOR_ATTACHMENT0, TEXTURE_2D, t, 0)] *)
Definition framebufferTexture2D (t : option WebGLTexture) : Context -> Context :=
  command (fun c =>
    if framebufferBound c then withFramebuffer true t c else c).

(** The fullscreen quad: clip-space positions and the texture coordinate
    attached to each vertex, as uploaded by the constructor. *)
Definition quadPositions : list (Q * Q) :=
  [(-1, -1); (1, -1); (-1, 1); (-1, 1); (1, -1); (1, 1)].
Definition quadTexCoords : list (Q * Q) :=
  [(0, 1); (1, 1); (0, 0); (0, 0); (1, 1); (1, 0)].

(** The interpolated [v_texCoord] at a point of the render target, given in
    window coordinates normalised to the unit square (origin bottom-left). *)
Definition v_texCoord (w : vec2) : vec2 := Vec2 (vx w) (1 - vy w).

(** [gl.drawArrays(gl.TRIANGLES, 0, 6)]: the quad covers the whole target.
    With the framebuffer bound the state-update program writes the
    attached texture, an RGBA/UNSIGNED_BYTE texture, which holds the
    fragment colours as 8-bit values; with the default framebuffer the
    draw is recorded on the canvas.  The renderer never draws the blend
    program into the framebuffer object (it unbinds it first); that case
    leaves the attachment as it is. *)
Definition drawArrays : Context -> Context :=
  command (fun c =>
    match program c with
    | None => c
    | Some p =>
        let tu := boundImages c in
        let c := withDraws (p :: draws c) c in
        if framebufferBound c then
          match p, attachment c with
          | StateUpdateProgram, Some (Owned n) =>
              match textures c !! n with
              | Some tx =>
                  let u := stateUniforms c in
                  withTextures
                    (<[n := {| tex_width := tex_width tx; tex_height := tex_height tx;
                               tex_image := fun w =>
                                 rgba8 (StateUpdateShader.main tu u (v_texCoord w)) |}]>
                       (textures c)) c
              | None => c
              end
          | _, _ => c
          end
        else
          match p with
          | StateUpdateProgram =>
              withCanvas {| width := width (canvas c); height := height (canvas c);
                            drawing := StateDraw tu (stateUniforms c) |} c
          | BlendProgram =>
              withCanvas {| width := width (canvas c); height := height (canvas c);
                            drawing := BlendDraw tu (blendUniforms c) |} c
          end
    end).

(** How many draws the state-update program has made on this context. *)
Fixpoint countStateDraws (log : list WebGLProgram) : nat :=
  match log with
  | [] => O
  | StateUpdateProgram :: log' => S (countStateDraws log')
  | BlendProgram :: log' => countStateDraws log'
  end.

Definition statePasses (c : Context) : nat := countStateDraws (draws c).

(** [gl.clear(gl.COLOR_BUFFER_BIT)] with clear colour (0, 0, 0, 0). *)
Definition clear : Context -> Context :=
  command (fun c =>
    if framebufferBound c then
      match attachment c with
      | Some (Owned n) =>
          match textures c !! n with
          | Some tx => withTextures (<[n := emptyPixels (tex_width tx) (tex_height tx)]> (textures c)) c
          | None => c
          end
      | _ => c
      end
    else
      withCanvas {| width := width (canvas c); height := height (canvas c);
                    drawing := Cleared |} c).

(** [gl.deleteFramebuffer(fbo)] and [gl.deleteProgram(p)]. *)
Definition deleteFramebuffer : Context -> Context :=
  command (fun c => withFramebuffer false None c).

Definition deleteProgram (p : WebGLProgram) : Context -> Context :=
  command (fun c =>
    match program c, p with
    | Some StateUpdateProgram, StateUpdateProgram
    | Some BlendProgram, BlendProgram =>
        withPrograms None (stateUniforms c) (blendUniforms c) c
    | _, _ => c
    end).

(** Assigning [canvas.width] or [canvas.height] resets the drawing buffer. *)
Definition setCanvasWidth (w : Z) (c : Context) : Context :=
  withCanvas {| width := w; height := height (canvas c); drawing := Blank |} c.
Definition setCanvasHeight (h : Z) (c : Context) : Context :=
  withCanvas {| width := width (canvas c); height := h; drawing := Blank |} c.

(** [canvas.getContext('webgl2', attributes)]: a fresh context on a canvas,
    with no texture, unit 0 active, no program, all uniforms zero and the
    default framebuffer bound. *)
Definition getContext (cv : Canvas) (attrs : WebGLContextAttributes) : Context :=
  {| attributes := attrs;
     contextLost := false; nextName := 1%positive; textures := ∅;
     activeUnit := 0; bindings := ∅; program := None;
     stateUniforms := StateUpdateShader.Build_Uniforms 0%Z 0%Z 0%Z 0 0 0 0%Z (Vec2 0 0) 0;
     blendUniforms :=
       BlendShader.Build_Uniforms 0%Z 0%Z 0%Z (Vec2 0 0) (Vec2 0 0) 0 0 0 0%Z 0 0 0;
     framebufferBound := false; attachment := None;
     canvas := {| width := width cv; height := height cv; drawing := Blank |};
     texturesCreated := 0; texturesDeleted := 0; draws := [] |}.

End GL.

(** ** The renderer *)

Module Renderer.

Import GL.

Record VideoFrame : Type := {
  displayWidth : Z;
  displayHeight : Z;
  frameImage : image
}.

Record ImageBitmap : Type := {
  bitmapWidth : Z;
  bitmapHeight : Z;
  bitmapImage : image
}.

(** The 2D canvas a video background is decoded onto. *)
Record OffscreenCanvas : Type := {
  surfaceWidth : Z;
  surfaceHeight : Z;
  surfaceImage : image
}.

Definition ReadableStream : Type := nat.

Inductive Media : Type :=
| BitmapMedia (b : ImageBitmap)
| StreamMedia (s : ReadableStream).

(** [BackgroundSource] (the [video] and [track] fields are not read by the
    renderer). *)
Record BackgroundSource : Type := {
  type : string;
  media : option Media;
  url : string
}.

Inductive BackgroundRenderInfo : Type :=
| ImageInfo (texture : WebGLTexture) (width height : Z) (url : string)
| VideoInfo (texture : WebGLTexture) (url : string) (media : ReadableStream)
    (canvas : OffscreenCanvas)
| ColorInfo (texture : WebGLTexture) (color : Z * Z * Z * Z).

Definition texture (info : BackgroundRenderInfo) : WebGLTexture :=
  match info with
  | ImageInfo t _ _ _ => t
  | VideoInfo t _ _ _ => t
  | ColorInfo t _ => t
  end.

Record Options : Type := {
  smoothing : Q;
  smoothstepMin : Q;
  smoothstepMax : Q;
  backgroundSource : option BackgroundSource;
  borderSmooth : Q;
  bgBlur : Q;
  bgBlurRadius : Q;
  stateBlurRadius : option Q;
  blendSpatialBlurBlur : option Q;
  blendSpatialBlurVbg : option Q;
  vbgSmoothstepMin : option Q;
  vbgSmoothstepMax : option Q
}.

Record WebGLRenderer : Type := {
  gl : Context;
  storedStateTextures : list (option WebGLTexture);
  running : bool;
  currentStateIndex : Z;
  backgroundRenderInfo : option BackgroundRenderInfo;
  activeBackgroundSourceIdentifier : option string
}.

Definition DEFAULT_BG_COLOR : Z * Z * Z * Z := (33, 150, 243, 255)%Z.

Definition withGl (g : Context) (this : WebGLRenderer) : WebGLRenderer :=
  {| gl := g; storedStateTextures := storedStateTextures this;
     running := running this; currentStateIndex := currentStateIndex this;
     backgroundRenderInfo := backgroundRenderInfo this;
     activeBackgroundSourceIdentifier := activeBackgroundSourceIdentifier this |}.

Definition withBackground (info : option BackgroundRenderInfo)
    (id : option string) (this : WebGLRenderer) : WebGLRenderer :=
  {| gl := gl this; storedStateTextures := storedStateTextures this;
     running := running this; currentStateIndex := currentStateIndex this;
     backgroundRenderInfo := info;
     activeBackgroundSourceIdentifier := id |}.

Definition withState (stored : list (option WebGLTexture)) (run : bool)
    (index : Z) (this : WebGLRenderer) : WebGLRenderer :=
  {| gl := gl this; storedStateTextures := stored;
     running := run; currentStateIndex := index;
     backgroundRenderInfo := backgroundRenderInfo this;
     activeBackgroundSourceIdentifier := activeBackgroundSourceIdentifier this |}.

(** *** Method bodies: a state and exception monad over [this] *)

Inductive Completion (A : Type) : Type :=
| Normal (a : A) (this : WebGLRenderer)
| Throw (error : string) (this : WebGLRenderer).
Arguments Normal {A} a this.
Arguments Throw {A} error this.

Definition Method (A : Type) : Type := WebGLRenderer -> Completion A.

Definition ret {A : Type} (a : A) : Method A := fun this => Normal a this.

Definition bind {A B : Type} (m : Method A) (k : A -> Method B) : Method B :=
  fun this =>
    match m this with
    | Normal a this' => k a this'
    | Throw e this' => Throw e this'
    end.

Definition throw {A : Type} (e : string) : Method A := fun this => Throw e this.

Definition getThis : Method WebGLRenderer := fun this => Normal this this.

Definition assign (f : WebGLRenderer -> WebGLRenderer) : Method unit :=
  fun this => Normal tt (f this).

(** A call [gl.f(..)] without result. *)
Definition call (f : Context -> Context) : Method unit :=
  assign (fun this => withGl (f (gl this)) this).

Definition glCreateTexture : Method (option WebGLTexture) :=
  fun this =>
    let '(t, g) := createTexture (gl this) in Normal t (withGl g this).

Declare Scope method_scope.
Delimit Scope method_scope with method.
Notation "x <- m ;; k" := (bind m (fun x => k))
  (at level 100, m at next level, right associativity) : method_scope.
Notation "m ;; k" := (bind m (fun _ => k))
  (at level 100, right associativity) : method_scope.
Local Open Scope method_scope.

(** The renderer after a method, however it completed. *)
Definition after {A : Type} (r : Completion A) : WebGLRenderer :=
  match r with
  | Normal _ this => this
  | Throw _ this => this
  end.

Definition returned {A : Type} (r : Completion A) : bool :=
  match r with
  | Normal _ _ => true
  | Throw _ _ => false
  end.

(** [`color(${r},${g},${b},${a})`] *)
Definition decimal (z : Z) : string := NilZero.string_of_int (Z.to_int z).

Definition colorIdentifier (c : Z * Z * Z * Z) : string :=
  let '(r, g, b, a) := c in
  ("color(" ++ decimal r ++ "," ++ decimal g ++ "," ++ decimal b ++ ","
     ++ decimal a ++ ")")%string.

(** [a[i]] on a JS array: [undefined] outside the array. *)
Definition element {A : Type} (a : list (option A)) (i : Z) : option A :=
  if (i <? 0)%Z then None
  else match a !! Z.to_nat i with
       | Some x => x
       | None => None
       end.

(** [x ?? d] *)
Definition orElse (x : option Q) (d : Q) : Q :=
  match x with
  | Some v => v
  | None => d
  end.

(** The texture that [texImage2D(.., gl.RGBA, gl.RGBA, gl.UNSIGNED_BYTE,
    source)] allocates from an image source: the source's pixels as 8-bit
    values. *)
Definition videoFrameTexture (f : VideoFrame) : Texture :=
  {| tex_width := displayWidth f; tex_height := displayHeight f;
     tex_image := fun p => rgba8 (frameImage f p) |}.

Definition bitmapTexture (b : ImageBitmap) : Texture :=
  {| tex_width := bitmapWidth b; tex_height := bitmapHeight b;
     tex_image := fun p => rgba8 (bitmapImage b p) |}.

Definition surfaceTexture (s : OffscreenCanvas) : Texture :=
  {| tex_width := surfaceWidth s; tex_height := surfaceHeight s;
     tex_image := fun p => rgba8 (surfaceImage s p) |}.

(** *** The constructor (after the two programs have linked) *)

Definition newStateTexture (g : Context) : option WebGLTexture * Context :=
  let '(tex, g) := createTexture g in
  let g := bindTexture tex g in
  let g := texImage2D (bytePixel (0, 0, 0, 255)%Z) g in
  (tex, g).

Definition constructor (canvas : Canvas) : WebGLRenderer :=
  let g := getContext canvas
             {| alpha := false; antialias := false; desynchronized := false;
                preserveDrawingBuffer := true |} in
  let '(tex0, g) := newStateTexture g in
  let '(tex1, g) := newStateTexture g in
  let g := bindTexture None g in
  {| gl := g;
     storedStateTextures := [tex0; tex1];
     running := true;
     currentStateIndex := 0;
     backgroundRenderInfo := None;
     activeBackgroundSourceIdentifier := None |}.

(** *** [createColorTexture] *)

Definition createColorTexture (r g b a : Z)
    : Method (WebGLTexture * (Z * Z * Z * Z)) :=
  texture <- glCreateTexture ;;
  match texture with
  | None => throw "Failed to create texture for color"
  | Some texture =>
      call (bindTexture (Some texture)) ;;
      call (texImage2D (bytePixel (r, g, b, a))) ;;
      call (bindTexture None) ;;
      ret (texture, (r, g, b, a))
  end.

(** *** [updateBackgroundIfNeeded] *)

Definition sameIdentifier (newIdentifier : string) (active : option string) : bool :=
  match active with
  | Some a => String.eqb newIdentifier a
  | None => false
  end.

Definition isSome {A : Type} (x : option A) : bool :=
  match x with
  | Some _ => true
  | None => false
  end.

Definition defaultColorBackground : Method unit :=
  let '(r, g, b, a) := DEFAULT_BG_COLOR in
  colorTexData <- createColorTexture r g b a ;;
  assign (withBackground (Some (ColorInfo (fst colorTexData) (snd colorTexData)))
                         (Some (colorIdentifier (r, g, b, a)))).

Definition imageBackground (newSource : BackgroundSource) : Method unit :=
  texture <- glCreateTexture ;;
  match texture with
  | None => throw "Failed to create texture object for image."
  | Some texture =>
      call (bindTexture (Some texture)) ;;
      match media newSource with
      | Some (BitmapMedia bitmap) =>
          call (texImage2D (bitmapTexture bitmap)) ;;
          call (bindTexture None) ;;
          assign (fun this =>
                    withBackground
                      (Some (ImageInfo texture (bitmapWidth bitmap) (bitmapHeight bitmap)
                                       (url newSource)))
                      (activeBackgroundSourceIdentifier this) this)
      | _ => throw "TypeError"
      end
  end.

Definition videoBackground (newSource : BackgroundSource) : Method unit :=
  let canvas := {| surfaceWidth := 1; surfaceHeight := 1;
                   surfaceImage := fun _ => transparentBlack |} in
  match media newSource with
  | Some (StreamMedia stream) =>
      texture <- glCreateTexture ;;
      match texture with
      | None => throw "Failed to create texture for video"
      | Some texture =>
          call (bindTexture (Some texture)) ;;
          call (texImage2D (emptyPixels 1 1)) ;;
          call (bindTexture None) ;;
          assign (fun this =>
                    withBackground
                      (Some (VideoInfo texture (url newSource) stream canvas))
                      (activeBackgroundSourceIdentifier this) this)
      end
  | _ => throw "TypeError"
  end.

(** The identity of a request: its URL, or the colour key without source. *)
Definition newIdentifier (newSource : option BackgroundSource) : string :=
  match newSource with
  | None => colorIdentifier DEFAULT_BG_COLOR
  | Some newSource => url newSource
  end.

(** [newIdentifier === this.activeBackgroundSourceIdentifier &&
    this.backgroundRenderInfo] *)
Definition cacheHit (newSource : option BackgroundSource) (this : WebGLRenderer) : bool :=
  sameIdentifier (newIdentifier newSource) (activeBackgroundSourceIdentifier this)
  && isSome (backgroundRenderInfo this).

Definition updateBackgroundIfNeeded (newSource : option BackgroundSource)
    : Method unit :=
  let newIdentifier := newIdentifier newSource in
  this <- getThis ;;
  if cacheHit newSource this
  then ret tt
  else
    match backgroundRenderInfo this with
    | Some info =>
        call (deleteTexture (Some (texture info))) ;;
        assign (fun this => withBackground None (activeBackgroundSourceIdentifier this) this)
    | None => ret tt
    end ;;
    assign (fun this => withBackground (backgroundRenderInfo this) (Some newIdentifier) this) ;;
    match newSource with
    | None => defaultColorBackground
    | Some newSource =>
        if String.eqb (type newSource) "image" then imageBackground newSource
        else if String.eqb (type newSource) "video" then videoBackground newSource
        else ret tt
    end ;;
    this <- getThis ;;
    if isSome (backgroundRenderInfo this) then ret tt
    else defaultColorBackground.

(** A request the update can construct under its own identity: no source,
    or an image source with its bitmap, or a video source with its
    stream. *)
Definition constructible (newSource : option BackgroundSource) : bool :=
  match newSource with
  | None => true
  | Some s =>
      if String.eqb (type s) "image"
      then match media s with Some (BitmapMedia _) => true | _ => false end
      else if String.eqb (type s) "video"
      then match media s with Some (StreamMedia _) => true | _ => false end
      else false
  end.

(** A request whose media, if its type needs one, is of the matching
    kind; any other type tag needs none. *)
Definition mediaMatches (newSource : option BackgroundSource) : bool :=
  match newSource with
  | None => true
  | Some s =>
      if String.eqb (type s) "image"
      then match media s with Some (BitmapMedia _) => true | _ => false end
      else if String.eqb (type s) "video"
      then match media s with Some (StreamMedia _) => true | _ => false end
      else true
  end.

(** *** [render] *)

(** The branch taken without both mask textures: the frame is drawn with
    [u_enabled = 0]. *)
Definition passthrough (videoFrame : VideoFrame) : Method unit :=
  call (useProgram BlendProgram) ;;
  frameTexture <- glCreateTexture ;;
  call (activeTexture 0) ;;
  call (bindTexture frameTexture) ;;
  call (texImage2D (videoFrameTexture videoFrame)) ;;
  call (uniform1i (OfBlend B_frameTexture) 0) ;;
  call (uniform1i (OfBlend B_enabled) 0) ;;
  call drawArrays ;;
  call (deleteTexture frameTexture) ;;
  call (activeTexture 0) ;;
  call (bindTexture None).

(** State Update Pass *)
Definition stateUpdatePass (width height : Z) (options : Options)
    (categoryTexture confidenceTexture : WebGLTexture)
    (useSelfieModel : option bool)
    (prevStateTexture newStateTexture : option WebGLTexture) : Method unit :=
  call (bindFramebuffer true) ;;
  call (framebufferTexture2D newStateTexture) ;;
  call (bindTexture newStateTexture) ;;
  call (texImage2D (emptyPixels width height)) ;;
  call (useProgram StateUpdateProgram) ;;
  call (activeTexture 0) ;;
  call (bindTexture (Some categoryTexture)) ;;
  call (uniform1i (OfState S_categoryTexture) 0) ;;
  call (activeTexture 1) ;;
  call (bindTexture (Some confidenceTexture)) ;;
  call (uniform1i (OfState S_confidenceTexture) 1) ;;
  call (activeTexture 2) ;;
  call (bindTexture prevStateTexture) ;;
  call (uniform1i (OfState S_prevStateTexture) 2) ;;
  call (uniform1f (OfState S_smoothingFactor) (smoothing options)) ;;
  call (uniform1f (OfState S_smoothstepMin) (smoothstepMin options)) ;;
  call (uniform1f (OfState S_smoothstepMax) (smoothstepMax options)) ;;
  call (uniform1i (OfState S_selfieModel)
          (match useSelfieModel with Some true => 1 | _ => 0 end)) ;;
  call (uniform2f (OfState S_resolution) (inject_Z width) (inject_Z height)) ;;
  call (uniform1f (OfState S_stateBlurRadius) (orElse (stateBlurRadius options) 6.0)) ;;
  call drawArrays.

(** The uniform values the state-update pass sets before its draw. *)
Definition stateUpdateUniforms (width height : Z) (options : Options)
    (useSelfieModel : option bool) : StateUpdateShader.Uniforms :=
  {| StateUpdateShader.u_categoryTexture := 0%Z;
     StateUpdateShader.u_confidenceTexture := 1%Z;
     StateUpdateShader.u_prevStateTexture := 2%Z;
     StateUpdateShader.u_smoothingFactor := smoothing options;
     StateUpdateShader.u_smoothstepMin := smoothstepMin options;
     StateUpdateShader.u_smoothstepMax := smoothstepMax options;
     StateUpdateShader.u_selfieModel :=
       match useSelfieModel with Some true => 1 | _ => 0 end;
     StateUpdateShader.u_resolution := Vec2 (inject_Z width) (inject_Z height);
     StateUpdateShader.u_stateBlurRadius := orElse (stateBlurRadius options) 6.0 |}.

(** The background part of the blending pass. *)
Definition bindBackground (width height : Z) : Method unit :=
  this <- getThis ;;
  match backgroundRenderInfo this with
  | Some info =>
      call (activeTexture 2) ;;
      call (bindTexture (Some (texture info))) ;;
      dims <-
        match info with
        | VideoInfo _ _ _ canvas =>
            let w := surfaceWidth canvas in
            let h := surfaceHeight canvas in
            call (texImage2D (emptyPixels w h)) ;;
            call (texImage2D (surfaceTexture canvas)) ;;
            ret (w, h)
        | ImageInfo _ w h _ => ret (w, h)
        | ColorInfo _ _ => ret (1, 1)%Z
        end ;;
      let '(bgWidth, bgHeight) := dims in
      call (uniform1i (OfBlend B_backgroundTexture) 2) ;;
      call (uniform2f (OfBlend B_bgImageDimensions)
              (inject_Z (if (bgWidth >? 0)%Z then bgWidth else 1))
              (inject_Z (if (bgHeight >? 0)%Z then bgHeight else 1))) ;;
      call (uniform2f (OfBlend B_canvasDimensions) (inject_Z width) (inject_Z height))
  | None => ret tt
  end.

(** Blending Pass, with its cleanup. *)
Definition blendingPass (videoFrame : VideoFrame) (width height : Z)
    (options : Options) (writeStateIndex : Z) : Method unit :=
  call (bindFramebuffer false) ;;
  call (useProgram BlendProgram) ;;
  frameTexture <- glCreateTexture ;;
  call (activeTexture 0) ;;
  call (bindTexture frameTexture) ;;
  call (texImage2D (videoFrameTexture videoFrame)) ;;
  call (uniform1i (OfBlend B_frameTexture) 0) ;;
  call (uniform1f (OfBlend B_borderSmooth) (borderSmooth options)) ;;
  call (uniform1f (OfBlend B_bgBlur) (bgBlur options)) ;;
  call (uniform1f (OfBlend B_bgBlurRadius) (bgBlurRadius options)) ;;
  call (uniform1i (OfBlend B_enabled) 1) ;;
  (* Set mode-specific blend params *)
  let isBlurMode := Qgtb (bgBlur options) 0 && Qgtb (bgBlurRadius options) 0 in
  call (uniform1f (OfBlend B_blendSpatialBlur)
          (if isBlurMode
           then orElse (blendSpatialBlurBlur options) 8.0
           else orElse (blendSpatialBlurVbg options) 14.0)) ;;
  call (uniform1f (OfBlend B_vbgSmoothstepMin) (orElse (vbgSmoothstepMin options) 0.4)) ;;
  call (uniform1f (OfBlend B_vbgSmoothstepMax) (orElse (vbgSmoothstepMax options) 0.6)) ;;
  this <- getThis ;;
  let currentStateTexture := element (storedStateTextures this) writeStateIndex in
  call (activeTexture 1) ;;
  call (bindTexture currentStateTexture) ;;
  call (uniform1i (OfBlend B_currentStateTexture) 1) ;;
  bindBackground width height ;;
  call drawArrays ;;
  (* Cleanup *)
  call (deleteTexture frameTexture) ;;
  call (activeTexture 0) ;; call (bindTexture None) ;;
  call (activeTexture 1) ;; call (bindTexture None) ;;
  call (activeTexture 2) ;; call (bindTexture None).

Definition render (videoFrame : VideoFrame) (options : Options)
    (categoryTexture confidenceTexture : option WebGLTexture)
    (useSelfieModel : option bool) : Method unit :=
  this <- getThis ;;
  if negb (running this) then ret tt
  else
    let width := displayWidth videoFrame in
    let height := displayHeight videoFrame in
    (if negb (GL.width (canvas (gl this)) =? width)%Z
        || negb (GL.height (canvas (gl this)) =? height)%Z
     then
       assign (fun this => withGl (setCanvasWidth width (gl this)) this) ;;
       assign (fun this => withGl (setCanvasHeight height (gl this)) this)
     else ret tt) ;;
    match categoryTexture, confidenceTexture with
    | Some categoryTexture, Some confidenceTexture =>
        this <- getThis ;;
        let readStateIndex := currentStateIndex this in
        let writeStateIndex := Z.rem (currentStateIndex this + 1) 2 in
        let prevStateTexture := element (storedStateTextures this) readStateIndex in
        let newStateTexture := element (storedStateTextures this) writeStateIndex in
        updateBackgroundIfNeeded (backgroundSource options) ;;
        stateUpdatePass width height options categoryTexture confidenceTexture
          useSelfieModel prevStateTexture newStateTexture ;;
        blendingPass videoFrame width height options writeStateIndex ;;
        assign (fun this =>
                  withState (storedStateTextures this) (running this)
                            writeStateIndex this)
    | _, _ => passthrough videoFrame
    end.

(** The renderer once [render] has matched the canvas to the frame. *)
Definition resized (videoFrame : VideoFrame) (this : WebGLRenderer) : WebGLRenderer :=
  if negb (GL.width (canvas (gl this)) =? displayWidth videoFrame)%Z
     || negb (GL.height (canvas (gl this)) =? displayHeight videoFrame)%Z
  then withGl (setCanvasHeight (displayHeight videoFrame)
                 (setCanvasWidth (displayWidth videoFrame) (gl this))) this
  else this.

(** The texture object behind [storedStateTextures[i]], if any. *)
Definition storedTexture (this : WebGLRenderer) (i : Z) : option Texture :=
  match element (storedStateTextures this) i with
  | Some (Owned n) => textures (gl this) !! n
  | Some (Foreign t) => Some t
  | Some Invalidated => None
  | None => None
  end.

(** [useSelfieModel ? 1 : 0], as the flag it stands for. *)
Definition polarityFlag (useSelfieModel : option bool) : bool :=
  match useSelfieModel with Some true => true | _ => false end.

(** A render call reaches the state-update pass when the renderer runs,
    both mask textures are given and the background update returns. *)
Definition reachesStateUpdate (videoFrame : VideoFrame) (options : Options)
    (categoryTexture confidenceTexture : option WebGLTexture)
    (this : WebGLRenderer) : bool :=
  running this && isSome categoryTexture && isSome confidenceTexture
  && returned (updateBackgroundIfNeeded (backgroundSource options)
                 (resized videoFrame this)).

(** *** [close] *)

Definition close : Method unit :=
  this <- getThis ;;
  if negb (running this) then ret tt
  else
    assign (fun this =>
              withState (storedStateTextures this) false (currentStateIndex this) this) ;;
    call clear ;;
    call (bindFramebuffer false) ;;
    call deleteFramebuffer ;;
    call (deleteProgram StateUpdateProgram) ;;
    call (deleteProgram BlendProgram) ;;
    this <- getThis ;;
    fold_right
      (fun texture rest => call (deleteTexture texture) ;; rest)
      (ret tt) (storedStateTextures this) ;;
    assign (fun this => withState [] (running this) (currentStateIndex this) this) ;;
    this <- getThis ;;
    match backgroundRenderInfo this with
    | Some info =>
        call (deleteTexture (Some (texture info))) ;;
        assign (fun this => withBackground None (activeBackgroundSourceIdentifier this) this)
    | None => ret tt
    end ;;
    assign (fun this => withBackground (backgroundRenderInfo this) None this).

(** *** What happens between method calls *)

(** The [write] callback of the video background's [WritableStream]: the
    decoded frame is drawn on the canvas held by the video render info. *)
Definition writerWrite (videoFrame : VideoFrame) (this : WebGLRenderer)
    : WebGLRenderer :=
  match backgroundRenderInfo this with
  | Some (VideoInfo t u m _) =>
      withBackground
        (Some (VideoInfo t u m
                 {| surfaceWidth := displayWidth videoFrame;
                    surfaceHeight := displayHeight videoFrame;
                    surfaceImage := frameImage videoFrame |}))
        (activeBackgroundSourceIdentifier this) this
  | _ => this
  end.

(** The browser takes the WebGL context away. *)
Definition loseContext (this : WebGLRenderer) : WebGLRenderer :=
  withGl (withContextLost true (gl this)) this.

(** The states a renderer can be in: built by the constructor, then driven
    by [render] and [close] with any arguments, with decoded background
    frames and context loss arriving in between. *)
Inductive reachable : WebGLRenderer -> Prop :=
| reach_constructor canvas :
    reachable (constructor canvas)
| reach_render this videoFrame options categoryTexture confidenceTexture useSelfieModel :
    reachable this ->
    reachable (after (render videoFrame options categoryTexture confidenceTexture
                             useSelfieModel this))
| reach_close this :
    reachable this -> reachable (after (close this))
| reach_writerWrite this videoFrame :
    reachable this -> reachable (writerWrite videoFrame this)
| reach_loseContext this :
    reachable this -> reachable (loseContext this).

(** What the canvas shows at a point given in window coordinates (origin
    bottom-left).  [v_texCoord w] is the same point with the vertical axis
    measured from the top, as in a video frame.  The drawing buffer holds
    the fragment colours as 8-bit values, and it has an alpha channel only
    if the context was created with one. *)
Section CanvasPicture.

Variables glsl_exp glsl_cos glsl_sin : Q -> Q.

Definition drawingBuffer (g : Context) (w : vec2) : vec4 :=
  match drawing (canvas g) with
  | Blank => transparentBlack
  | Cleared => transparentBlack
  | StateDraw tu u => rgba8 (StateUpdateShader.main tu u (v_texCoord w))
  | BlendDraw tu u =>
      rgba8 (BlendShader.main glsl_exp glsl_cos glsl_sin tu u (v_texCoord w))
  end.

Definition canvasPixel (g : Context) (w : vec2) : vec4 :=
  if alpha (attributes g) then drawingBuffer g w else opaque (drawingBuffer g w).

End CanvasPicture.

End Renderer.

(** ** The state update as the specification words it

    A second definition of the smoothed mask value, written from the
    specification's description of the state-update stage; it is compared
    with the shader below. *)

Module Spec.

(** The eight neighbours of a texel at a distance of [radius] texels. *)
Definition edgeAdjacent (radius : Q) : list vec2 :=
  [Vec2 0 (- radius); Vec2 (- radius) 0; Vec2 radius 0; Vec2 0 radius].

Definition corners (radius : Q) : list vec2 :=
  [Vec2 (- radius) (- radius); Vec2 radius (- radius);
   Vec2 (- radius) radius; Vec2 radius radius].

Definition total (l : list Q) : Q := fold_right Qplus 0 l.

(** The 3x3 Gaussian-weighted average of the previous smoothed mask: centre
    weight 4, edge-adjacent weight 2, corner weight 1, normalised by 16,
    sampled at offsets of [stateBlurRadius] texels. *)
Definition blurredPrevious (previous : image) (resolution : vec2)
    (stateBlurRadius : Q) (at_ : vec2) : Q :=
  let texel := v2recip resolution in
  let sample := fun offset => cr (previous (v2add at_ (v2mul offset texel))) in
  (4 * cr (previous at_)
   + 2 * total (map sample (edgeAdjacent stateBlurRadius))
   + 1 * total (map sample (corners stateBlurRadius))) / 16.

(** Both raw values inverted under the polarity flag; then a foreground
    category is pinned to 1 and its confidence inverted. *)
Definition category (polarityFlag : bool) (rawCategory : Q) : Q :=
  let c := if polarityFlag then 1 - rawCategory else rawCategory in
  if Qgtb c 0 then 1 else c.

Definition confidence (polarityFlag : bool) (rawCategory rawConfidence : Q) : Q :=
  let c := if polarityFlag then 1 - rawCategory else rawCategory in
  let k := if polarityFlag then 1 - rawConfidence else rawConfidence in
  if Qgtb c 0 then 1 - k else k.

(** [alpha = smoothing * smoothstep(smoothstepMin, smoothstepMax, confidence)],
    then the asymmetric-stickiness adjustment. *)
Definition baseAlpha (smoothing smoothstepMin smoothstepMax confidence : Q) : Q :=
  smoothing * smoothstep smoothstepMin smoothstepMax confidence.

Definition stickinessFactor (blurredPrevious : Q) : Q :=
  mix 0.7 0.25 (smoothstep 0.3 0.8 blurredPrevious).

Definition sticky (category blurredPrevious : Q) : bool :=
  Qltb category 0.5 && Qgtb blurredPrevious 0.3.

Definition alpha (smoothing smoothstepMin smoothstepMax : Q)
    (category confidence blurredPrevious : Q) : Q :=
  let a := baseAlpha smoothing smoothstepMin smoothstepMax confidence in
  if sticky category blurredPrevious then a * stickinessFactor blurredPrevious else a.

Definition maskValue (polarityFlag : bool)
    (smoothing smoothstepMin smoothstepMax stateBlurRadius : Q) (resolution : vec2)
    (categoryImage confidenceImage previous : image) (texCoord : vec2) : Q :=
  let rawCategory := cr (categoryImage texCoord) in
  let rawConfidence := cr (confidenceImage texCoord) in
  let c := category polarityFlag rawCategory in
  let k := confidence polarityFlag rawCategory rawConfidence in
  let b := blurredPrevious previous resolution stateBlurRadius
             (Vec2 (vx texCoord) (1 - vy texCoord)) in
  let a := alpha smoothing smoothstepMin smoothstepMax c k b in
  a * c + (1 - a) * b.

End Spec.

(** ** One pixel over a run of frames

    The mask value of a pixel whose 3x3 neighbourhood in the previous mask
    carries a single value (as under a spatially uniform signal), after
    the state update has consumed a list of raw (category, confidence)
    samples, one per frame.  Each pass leaves the shader's value in the
    write buffer as an 8-bit value, and the next pass reads it from
    there. *)

Module Signal.

Definition step (u : StateUpdateShader.Uniforms) (sample : Q * Q) (mask : Q) : Q :=
  GL.fromByte
    (GL.toByte (StateUpdateShader.newCategoryValue u (fst sample) (snd sample) mask)).



(** The configuration defaults, with the polarity flag unset. *)
Definition defaults : StateUpdateShader.Uniforms :=
  StateUpdateShader.Build_Uniforms 0%Z 1%Z 2%Z 0.7 0.25 0.85 0%Z (Vec2 640 480) 6.

(** The polarity flag of a uniform set, and the blend factor a raw sample
    produces before the stickiness adjustment. *)
Definition flag (u : StateUpdateShader.Uniforms) : bool :=
  (StateUpdateShader.u_selfieModel u =? 1)%Z.

Definition baseAlpha (u : StateUpdateShader.Uniforms) (sample : Q * Q) : Q :=
  Spec.baseAlpha (StateUpdateShader.u_smoothingFactor u)
    (StateUpdateShader.u_smoothstepMin u) (StateUpdateShader.u_smoothstepMax u)
    (Spec.confidence (flag u) (fst sample) (snd sample)).



End Signal.

(** ** Well-formed renderer states

    The index selects one of the two state textures; the framebuffer object
    is unbound between method calls; texture names are handed out in
    increasing order; while the renderer runs it holds two distinct state
    textures; the state textures are live; the background texture is none
    of them (or the invalidated object of a lost context); the drawing
    buffer has no alpha channel. *)

Module Invariant.

Import GL Renderer.

Record wellFormed (this : WebGLRenderer) : Prop := {
  wf_index : currentStateIndex this = 0%Z \/ currentStateIndex this = 1%Z;
  wf_framebuffer : framebufferBound (gl this) = false;
  wf_names : forall n tx,
      textures (gl this) !! n = Some tx -> (n < nextName (gl this))%positive;
  wf_pair : running this = true ->
      exists a b,
        storedStateTextures this = [Some (Owned a); Some (Owned b)] /\ a <> b;
  wf_live : forall n,
      In (Some (Owned n)) (storedStateTextures this) ->
      is_Some (textures (gl this) !! n);
  wf_background : forall info,
      backgroundRenderInfo this = Some info ->
      (texture info = Invalidated /\ contextLost (gl this) = true)
      \/ exists t,
           texture info = Owned t
           /\ (t < nextName (gl this))%positive
           /\ ~ In (Some (Owned t)) (storedStateTextures this);
  wf_opaque : alpha (attributes (gl this)) = false
}.

(** What [updateBackgroundIfNeeded] leaves alone. *)
Definition backgroundOnly (this this' : WebGLRenderer) : Prop :=
  storedStateTextures this' = storedStateTextures this
  /\ running this' = running this
  /\ currentStateIndex this' = currentStateIndex this
  /\ contextLost (gl this') = contextLost (gl this)
  /\ canvas (gl this') = canvas (gl this)
  /\ draws (gl this') = draws (gl this)
  /\ (forall n, In (Some (Owned n)) (storedStateTextures this) ->
        textures (gl this') !! n = textures (gl this) !! n).

(** Outcome of the two passes of an effect frame on a live context, for the
    read texture [nr] (with content [txr]) and the write texture [nw]. *)
Definition effectFrame (vf : VideoFrame) (opts : Options)
    (cat conf : WebGLTexture) (selfie : option bool) (nr nw : positive)
    (txr : Texture) (this this' : WebGLRenderer) : Prop :=
  storedStateTextures this' = storedStateTextures this
  /\ running this' = running this
  /\ currentStateIndex this' = currentStateIndex this
  /\ backgroundRenderInfo this' = backgroundRenderInfo this
  /\ activeBackgroundSourceIdentifier this' = activeBackgroundSourceIdentifier this
  /\ contextLost (gl this') = false
  /\ textures (gl this') !! nr = Some txr
  /\ (exists tu,
        textures (gl this') !! nw
        = Some {| tex_width := displayWidth vf; tex_height := displayHeight vf;
                  tex_image := fun w =>
                    rgba8
                      (StateUpdateShader.main tu
                         (stateUpdateUniforms (displayWidth vf) (displayHeight vf)
                            opts selfie)
                         (v_texCoord w)) |}
        /\ (forall tc, cat = Foreign tc -> tu 0%Z = tex_image tc)
        /\ (forall tk, conf = Foreign tk -> tu 1%Z = tex_image tk)
        /\ tu 2%Z = tex_image txr)
  /\ draws (gl this') = BlendProgram :: StateUpdateProgram :: draws (gl this)
  /\ width (canvas (gl this')) = width (canvas (gl this))
  /\ height (canvas (gl this')) = height (canvas (gl this))
  /\ texturesCreated (gl this') = S (texturesCreated (gl this))
  /\ texturesDeleted (gl this') = S (texturesDeleted (gl this)).

(** Outcome of a pass-through frame on a live context. *)
Definition passthroughFrame (vf : VideoFrame) (this this' : WebGLRenderer) : Prop :=
  storedStateTextures this' = storedStateTextures this
  /\ running this' = running this
  /\ currentStateIndex this' = currentStateIndex this
  /\ backgroundRenderInfo this' = backgroundRenderInfo this
  /\ activeBackgroundSourceIdentifier this' = activeBackgroundSourceIdentifier this
  /\ contextLost (gl this') = false
  /\ (forall n, (n < nextName (gl this))%positive ->
        textures (gl this') !! n = textures (gl this) !! n)
  /\ draws (gl this') = BlendProgram :: draws (gl this)
  /\ width (canvas (gl this')) = width (canvas (gl this))
  /\ height (canvas (gl this')) = height (canvas (gl this))
  /\ (exists tu u,
        drawing (canvas (gl this')) = BlendDraw tu u
        /\ BlendShader.u_enabled u = 0%Z
        /\ tu (BlendShader.u_frameTexture u) = tex_image (videoFrameTexture vf)).

End Invariant.

(** ** Concrete frames, masks and requests *)

Module Sample.

Import GL Renderer.

Definition canvas : Canvas := {| width := 300; height := 150; drawing := Blank |}.

(** A frame whose pixel colour encodes its position. *)
Definition frame (w h : Z) : VideoFrame :=
  {| displayWidth := w; displayHeight := h;
     frameImage := fun p => Vec4 (vx p) (vy p) 0 1 |}.

(** A frame of opaque 8-bit colours: red on its left half, blue on its
    right half. *)
Definition twoTone (w h : Z) : VideoFrame :=
  {| displayWidth := w; displayHeight := h;
     frameImage := fun p =>
       if Qle_bool (vx p) (1 # 2) then Vec4 1 0 0 1 else Vec4 0 0 1 1 |}.

(** A mask texture of the segmentation collaborator carrying one value. *)
Definition mask (v : Q) : Texture :=
  {| tex_width := 256; tex_height := 256; tex_image := fun _ => Vec4 v 0 0 0 |}.

(** The configuration defaults, without background source (virtual
    background mode with the default colour). *)
Definition options : Options :=
  {| smoothing := 0.7; smoothstepMin := 0.25; smoothstepMax := 0.85;
     backgroundSource := None; borderSmooth := 0.6; bgBlur := 0; bgBlurRadius := 0;
     stateBlurRadius := None; blendSpatialBlurBlur := None;
     blendSpatialBlurVbg := None; vbgSmoothstepMin := None;
     vbgSmoothstepMax := None |}.

(** The same with the smoothing factor set to 2. *)
Definition oversmoothedOptions : Options :=
  {| smoothing := 2; smoothstepMin := 0.25; smoothstepMax := 0.85;
     backgroundSource := None; borderSmooth := 0.6; bgBlur := 0; bgBlurRadius := 0;
     stateBlurRadius := None; blendSpatialBlurBlur := None;
     blendSpatialBlurVbg := None; vbgSmoothstepMin := None;
     vbgSmoothstepMax := None |}.

Definition fresh : WebGLRenderer := constructor canvas.

(** One effect frame at 2x2 with a sure-person mask. *)
Definition afterPersonFrame : WebGLRenderer :=
  after (render (frame 2 2) options (Some (Foreign (mask 1))) (Some (Foreign (mask 0)))
           None fresh).

(** Then a frame at 4x4 whose mask says background with confidence 0. *)
Definition afterResizedFrame : WebGLRenderer :=
  after (render (frame 4 4) options (Some (Foreign (mask 0))) (Some (Foreign (mask 0)))
           None afterPersonFrame).

(** A request with a type tag the renderer does not know. *)
Definition unknownSource : BackgroundSource :=
  {| type := "color"; media := None; url := "#ffffff" |}.

(** An image request carrying its bitmap. *)
Definition imageSource : BackgroundSource :=
  {| type := "image";
     media := Some (BitmapMedia {| bitmapWidth := 1920; bitmapHeight := 1080;
                                   bitmapImage := fun p => Vec4 (vx p) (vy p) 1 1 |});
     url := "blob:background" |}.

(** An image request that carries no bitmap. *)
Definition imageWithoutMedia : BackgroundSource :=
  {| type := "image"; media := None; url := "blob:background" |}.

(** The defaults with that request as background source. *)
Definition brokenOptions : Options :=
  {| smoothing := 0.7; smoothstepMin := 0.25; smoothstepMax := 0.85;
     backgroundSource := Some imageWithoutMedia;
     borderSmooth := 0.6; bgBlur := 0; bgBlurRadius := 0;
     stateBlurRadius := None; blendSpatialBlurBlur := None;
     blendSpatialBlurVbg := None; vbgSmoothstepMin := None;
     vbgSmoothstepMax := None |}.

(** Texture units carrying category 1, confidence 0 and an all-background
    previous mask. *)
Definition personUnits : textureUnits :=
  fun unit => if (unit =? 0)%Z then tex_image (mask 1) else tex_image (mask 0).

(** A 4:3 canvas with a 16:9 background, in virtual-background mode. *)
Definition widescreen : BlendShader.Uniforms :=
  BlendShader.Build_Uniforms 0%Z 1%Z 2%Z (Vec2 1920 1080) (Vec2 640 480)
    0.6 0 0 1%Z 14 0.4 0.6.

End Sample.

(** ** Feeding a uniform mask signal to the renderer

    One render call per (category, confidence) sample, each mask texture
    carrying its value at every pixel, and the mask texture the next call
    will read. *)

Module Scenario.

Import GL Renderer.

Definition feed (videoFrame : VideoFrame) (options : Options)
    (useSelfieModel : option bool) (this : WebGLRenderer) (sample : Q * Q)
    : WebGLRenderer :=
  after (render videoFrame options
           (Some (Foreign (Sample.mask (fst sample))))
           (Some (Foreign (Sample.mask (snd sample))))
           useSelfieModel this).

Definition run (videoFrame : VideoFrame) (options : Options)
    (useSelfieModel : option bool) (signal : list (Q * Q)) (this : WebGLRenderer)
    : WebGLRenderer :=
  fold_left (feed videoFrame options useSelfieModel) signal this.

Definition currentMask (this : WebGLRenderer) : option Texture :=
  storedTexture this (currentStateIndex this).


End Scenario.

(** * Properties *)

Import GL Renderer Invariant.

(** ** Arithmetic of the GLSL built-ins *)

Section Builtins.

Lemma Qltb_true (a b : Q) : Qltb a b = true <-> a < b.
Proof.
  unfold Qltb. rewrite negb_true_iff. split.
  - intros H. apply Qnot_le_lt. intros Hle. apply Qle_bool_iff in Hle. congruence.
  - intros H. destruct (Qle_bool b a) eqn:E; [|reflexivity].
    apply Qle_bool_iff in E. exfalso. apply (Qlt_not_le _ _ H E).
Qed.

Lemma Qltb_false (a b : Q) : Qltb a b = false <-> b <= a.
Proof. unfold Qltb. rewrite negb_false_iff. apply Qle_bool_iff. Qed.


Lemma Qgtb_false (a b : Q) : Qgtb a b = false <-> a <= b.
Proof. apply Qltb_false. Qed.

Lemma Qltb_comp (a a' b b' : Q) : a == a' -> b == b' -> Qltb a b = Qltb a' b'.
Proof. intros Ha Hb. unfold Qltb. now rewrite Ha, Hb. Qed.

Lemma clamp_unit (x : Q) : 0 <= clamp x 0 1 <= 1.
Proof.
  unfold clamp. split.
  - apply Q.min_glb; [apply Q.le_max_r | lra].
  - apply Q.le_min_r.
Qed.

Lemma clamp_comp (x x' : Q) : x == x' -> clamp x 0 1 == clamp x' 0 1.
Proof. intros H. unfold clamp. now rewrite H. Qed.

Lemma cubic_unit (t : Q) : 0 <= t <= 1 -> 0 <= t * t * (3 - 2 * t) <= 1.
Proof.
  intros [H0 H1]. split.
  - assert (0 <= t * t) by nra. nra.
  - assert (0 <= (1 - t) * (1 - t)) by nra. nra.
Qed.

Lemma smoothstep_unit (e0 e1 x : Q) : 0 <= smoothstep e0 e1 x <= 1.
Proof.
  unfold smoothstep. apply cubic_unit.
  destruct (Qeq_bool e0 e1); [|apply clamp_unit].
  destruct (Qltb e0 x); split; discriminate.
Qed.

Lemma smoothstep_comp (e0 e1 x x' : Q) :
  x == x' -> smoothstep e0 e1 x == smoothstep e0 e1 x'.
Proof.
  intros H. unfold smoothstep. cbv zeta.
  destruct (Qeq_bool e0 e1).
  - rewrite (Qltb_comp e0 e0 x x') by (reflexivity || exact H). reflexivity.
  - assert (E : clamp ((x - e0) / (e1 - e0)) 0 1 == clamp ((x' - e0) / (e1 - e0)) 0 1).
    { apply clamp_comp. now rewrite H. }
    now rewrite E.
Qed.

(** Between distinct edges in increasing order [smoothstep] is the
    reference formula, 0 up to the lower edge and 1 from the upper edge. *)
Lemma smoothstep_formula (e0 e1 x : Q) :
  e0 < e1 ->
  smoothstep e0 e1 x
  = let t := clamp ((x - e0) / (e1 - e0)) 0 1 in t * t * (3 - 2 * t).
Proof.
  intros H. unfold smoothstep.
  destruct (Qeq_bool e0 e1) eqn:E; [|reflexivity].
  apply Qeq_bool_eq in E. lra.
Qed.

Lemma mix_between (x y a : Q) : 0 <= a <= 1 -> y <= x -> y <= mix x y a <= x.
Proof. unfold mix. intros [H0 H1] Hyx. split; nra. Qed.

Lemma stickiness_factor_range (p : Q) : 0.25 <= Spec.stickinessFactor p <= 0.7.
Proof.
  unfold Spec.stickinessFactor. apply mix_between; [apply smoothstep_unit | lra].
Qed.

Lemma convex (a x y : Q) :
  0 <= a <= 1 -> 0 <= x <= 1 -> 0 <= y <= 1 -> 0 <= a * x + (1 - a) * y <= 1.
Proof. intros. split; nra. Qed.

End Builtins.

(** ** Arithmetic of the 8-bit storage *)

Section Storage.

Lemma Qfloor_unique (x : Q) (z : Z) :
  inject_Z z <= x -> x < inject_Z (z + 1) -> Qfloor x = z.
Proof.
  intros Hle Hlt.
  pose proof (Qfloor_le x) as Hf. pose proof (Qlt_floor x) as Hc.
  assert (H1 : inject_Z (Qfloor x) < inject_Z (z + 1)) by lra.
  assert (H2 : inject_Z z < inject_Z (Qfloor x + 1)) by lra.
  rewrite <- Zlt_Qlt in H1, H2. lia.
Qed.

Lemma toByte_range (x : Q) : (0 <= toByte x <= 255)%Z.
Proof.
  unfold toByte. pose proof (clamp_unit x) as [H0 H1].
  split.
  - apply (Z.le_trans _ (Qfloor 0)); [discriminate|]. apply Qfloor_resp_le. lra.
  - apply (Z.le_trans _ (Qfloor (255 + (1 # 2)))); [|discriminate].
    apply Qfloor_resp_le. lra.
Qed.

Lemma toByte_comp (x y : Q) : x == y -> toByte x = toByte y.
Proof.
  intros H. unfold toByte. apply Qfloor_comp. rewrite (clamp_comp x y H). reflexivity.
Qed.



Lemma fromByte_comp (a b : Z) : a = b -> fromByte a == fromByte b.
Proof. intros ->. reflexivity. Qed.

Lemma fromByte_monotone (a b : Z) : (a <= b)%Z -> fromByte a <= fromByte b.
Proof.
  intros H. unfold fromByte, Qdiv. rewrite Zle_Qle in H.
  apply Qmult_le_compat_r; [exact H | discriminate].
Qed.

Lemma stored_unit (x : Q) : 0 <= fromByte (toByte x) <= 1.
Proof.
  pose proof (toByte_range x) as [H0 H1].
  split.
  - apply (Qle_trans _ (fromByte 0)); [discriminate|].
    apply fromByte_monotone. exact H0.
  - apply (Qle_trans _ (fromByte 255)); [|discriminate].
    apply fromByte_monotone. exact H1.
Qed.

(** A value that is already a byte is stored as it is. *)
Lemma toByte_fromByte (b : Z) : (0 <= b <= 255)%Z -> toByte (fromByte b) = b.
Proof.
  intros [H0 H1]. unfold toByte, fromByte.
  rewrite Zle_Qle in H0, H1.
  change (inject_Z 0) with 0 in H0. change (inject_Z 255) with 255 in H1.
  assert (L0 : 0 <= inject_Z b / 255) by (apply Qle_shift_div_l; [reflexivity | lra]).
  assert (L1 : inject_Z b / 255 <= 1) by (apply Qle_shift_div_r; [reflexivity | lra]).
  assert (E : clamp (inject_Z b / 255) 0 1 * 255 == inject_Z b).
  { unfold clamp. rewrite (Q.max_l _ 0) by exact L0. rewrite Q.min_l by exact L1.
    field. }
  apply Qfloor_unique.
  - rewrite E. lra.
  - rewrite E. rewrite inject_Z_plus. change (inject_Z 1) with 1. lra.
Qed.

(** Storing again changes nothing. *)
Lemma stored_again (x : Q) :
  fromByte (toByte (fromByte (toByte x))) == fromByte (toByte x).
Proof. rewrite toByte_fromByte by apply toByte_range. reflexivity. Qed.




(** Inside the unit interval, storing moves a value by at most half a
    level. *)
Lemma stored_close (x : Q) :
  0 <= x <= 1 -> Qabs (fromByte (toByte x) - x) <= 1 # 510.
Proof.
  intros [H0 H1]. unfold toByte, fromByte.
  assert (E : clamp x 0 1 == x).
  { unfold clamp. rewrite (Q.max_l _ 0) by exact H0. apply Q.min_l. exact H1. }
  set (n := Qfloor (clamp x 0 1 * 255 + (1 # 2))).
  pose proof (Qfloor_le (clamp x 0 1 * 255 + (1 # 2))) as Hl.
  pose proof (Qlt_floor (clamp x 0 1 * 255 + (1 # 2))) as Hu.
  fold n in Hl, Hu. rewrite E in Hl, Hu.
  rewrite inject_Z_plus in Hu. change (inject_Z 1) with 1 in Hu.
  assert (D : inject_Z n / 255 - x == (inject_Z n - x * 255) / 255) by field.
  rewrite D.
  apply Qabs_case; intros _.
  - apply Qle_shift_div_r; [reflexivity | lra].
  - assert (N : - ((inject_Z n - x * 255) / 255) == (x * 255 - inject_Z n) / 255) by field.
    rewrite N. apply Qle_shift_div_r; [reflexivity | lra].
Qed.


Lemma stored_comp (x y : Q) : x == y -> fromByte (toByte x) == fromByte (toByte y).
Proof. intros H. rewrite (toByte_comp x y H). reflexivity. Qed.

End Storage.

(** ** The state-update shader against the specification's wording *)

Section StateUpdate.

Lemma sampleBlurred_spec tu u s coord radius :
  StateUpdateShader.sampleBlurred tu u s coord radius
  == Spec.blurredPrevious (tu s) (StateUpdateShader.u_resolution u) radius coord.
Proof.
  unfold StateUpdateShader.sampleBlurred, Spec.blurredPrevious, texture2D. cbn.
  apply Qmult_comp; [|reflexivity]. ring.
Qed.

Lemma pinned_category u c k :
  fst (StateUpdateShader.pinForeground (StateUpdateShader.polarity u (c, k)))
  = Spec.category (Signal.flag u) c.
Proof.
  unfold StateUpdateShader.pinForeground, StateUpdateShader.polarity, Spec.category,
    Signal.flag.
  destruct (StateUpdateShader.u_selfieModel u =? 1)%Z; cbn;
    match goal with |- context [Qgtb ?a ?b] => destruct (Qgtb a b) end; reflexivity.
Qed.

Lemma pinned_confidence u c k :
  snd (StateUpdateShader.pinForeground (StateUpdateShader.polarity u (c, k)))
  = Spec.confidence (Signal.flag u) c k.
Proof.
  unfold StateUpdateShader.pinForeground, StateUpdateShader.polarity, Spec.confidence,
    Signal.flag.
  destruct (StateUpdateShader.u_selfieModel u =? 1)%Z; cbn;
    match goal with |- context [Qgtb ?a ?b] => destruct (Qgtb a b) end; reflexivity.
Qed.

Lemma asymmetric_spec c p a :
  StateUpdateShader.asymmetric c p a
  = if Spec.sticky c p then a * Spec.stickinessFactor p else a.
Proof. reflexivity. Qed.

(** The body of [main] is the specification's blend, term by term. *)
Lemma newCategoryValue_spec u c k p :
  StateUpdateShader.newCategoryValue u c k p
  = let a := Spec.alpha (StateUpdateShader.u_smoothingFactor u)
               (StateUpdateShader.u_smoothstepMin u) (StateUpdateShader.u_smoothstepMax u)
               (Spec.category (Signal.flag u) c) (Spec.confidence (Signal.flag u) c k) p in
    a * Spec.category (Signal.flag u) c + (1 - a) * p.
Proof.
  unfold StateUpdateShader.newCategoryValue. cbv zeta.
  rewrite pinned_category, pinned_confidence. reflexivity.
Qed.

Lemma asymmetric_comp c p p' a a' :
  p == p' -> a == a' ->
  StateUpdateShader.asymmetric c p a == StateUpdateShader.asymmetric c p' a'.
Proof.
  intros Hp Ha. unfold StateUpdateShader.asymmetric, Qgtb.
  rewrite (Qltb_comp 0.3 0.3 p p') by (reflexivity || exact Hp).
  destruct (_ && _); cbv zeta.
  - pose proof (smoothstep_comp 0.3 0.8 p p' Hp) as E. unfold mix. now rewrite E, Ha.
  - exact Ha.
Qed.

(** The update respects equality of rationals in the history value. *)
Lemma newCategoryValue_comp u c k p p' :
  p == p' ->
  StateUpdateShader.newCategoryValue u c k p == StateUpdateShader.newCategoryValue u c k p'.
Proof.
  intros H. unfold StateUpdateShader.newCategoryValue. cbv zeta.
  set (cc := StateUpdateShader.pinForeground _).
  set (a := _ * smoothstep _ _ _).
  pose proof (asymmetric_comp (fst cc) p p' a a H (Qeq_refl a)) as E.
  now rewrite E, H.
Qed.

Lemma main_refines_spec tu u t :
  cr (StateUpdateShader.main tu u t)
  == Spec.maskValue (Signal.flag u)
       (StateUpdateShader.u_smoothingFactor u)
       (StateUpdateShader.u_smoothstepMin u) (StateUpdateShader.u_smoothstepMax u)
       (StateUpdateShader.u_stateBlurRadius u) (StateUpdateShader.u_resolution u)
       (tu (StateUpdateShader.u_categoryTexture u))
       (tu (StateUpdateShader.u_confidenceTexture u))
       (tu (StateUpdateShader.u_prevStateTexture u)) t.
Proof.
  unfold StateUpdateShader.main. cbn [cr].
  pose proof (sampleBlurred_spec tu u (StateUpdateShader.u_prevStateTexture u)
                (Vec2 (vx t) (1 - vy t)) (StateUpdateShader.u_stateBlurRadius u)) as Hb.
  pose proof (newCategoryValue_comp u
                (cr (texture2D tu (StateUpdateShader.u_categoryTexture u) t))
                (cr (texture2D tu (StateUpdateShader.u_confidenceTexture u) t)) _ _ Hb) as E.
  rewrite E. rewrite newCategoryValue_spec. reflexivity.
Qed.


Lemma spec_category_unit flag c : 0 <= c <= 1 -> 0 <= Spec.category flag c <= 1.
Proof.
  intros H. unfold Spec.category.
  destruct flag; match goal with |- context [Qgtb ?a ?b] => destruct (Qgtb a b) end; lra.
Qed.

Lemma spec_alpha_unit s lo hi c k p :
  0 <= s <= 1 -> 0 <= Spec.alpha s lo hi c k p <= 1.
Proof.
  intros Hs. unfold Spec.alpha, Spec.baseAlpha. cbv zeta.
  pose proof (smoothstep_unit lo hi k) as Hk.
  pose proof (stickiness_factor_range p) as Hf.
  set (n := smoothstep lo hi k) in *. set (f := Spec.stickinessFactor p) in *.
  assert (Hb : 0 <= s * n <= 1) by (split; nra).
  destruct (Spec.sticky c p); [split; nra | exact Hb].
Qed.

Lemma newCategoryValue_unit u c k p :
  0 <= StateUpdateShader.u_smoothingFactor u <= 1 ->
  0 <= c <= 1 -> 0 <= p <= 1 ->
  0 <= StateUpdateShader.newCategoryValue u c k p <= 1.
Proof.
  intros Hs Hc Hp. rewrite newCategoryValue_spec. cbv zeta.
  apply convex; [apply spec_alpha_unit, Hs | apply spec_category_unit, Hc | exact Hp].
Qed.

Lemma sampleBlurred_unit tu u s coord radius :
  (forall c, 0 <= cr (tu s c) <= 1) ->
  0 <= StateUpdateShader.sampleBlurred tu u s coord radius <= 1.
Proof.
  intros H. unfold StateUpdateShader.sampleBlurred, texture2D. cbv zeta.
  repeat match goal with
  | |- context [cr (tu s ?c)] =>
      let x := fresh "x" in let Hx := fresh "Hx" in
      pose proof (H c) as Hx; set (x := cr (tu s c)) in *; clearbody x
  end.
  split.
  - apply Qle_shift_div_l; lra.
  - apply Qle_shift_div_r; lra.
Qed.

End StateUpdate.
(** ** Range of the shader's value *)

Section MaskRange.

(** Before it is stored: with the smoothing factor in [0, 1] and category
    and history in [0, 1] the shader's own value lies in [0, 1]. *)
Lemma main_unit tu u t :
  0 <= StateUpdateShader.u_smoothingFactor u <= 1 ->
  (forall c, 0 <= cr (tu (StateUpdateShader.u_categoryTexture u) c) <= 1) ->
  (forall c, 0 <= cr (tu (StateUpdateShader.u_prevStateTexture u) c) <= 1) ->
  0 <= cr (StateUpdateShader.main tu u t) <= 1.
Proof.
  intros Hs Hc Hp. unfold StateUpdateShader.main. cbn [cr].
  apply newCategoryValue_unit; [exact Hs | apply Hc | apply sampleBlurred_unit, Hp].
Qed.

End MaskRange.

(** ** Runs of frames at one pixel *)

Section Runs.





Lemma step_unit u sample m : 0 <= Signal.step u sample m <= 1.
Proof. apply stored_unit. Qed.










End Runs.

(** ** Asymmetric stickiness *)

Section Stickiness.

Variable u : StateUpdateShader.Uniforms.







End Stickiness.

Section Settled.




End Settled.




(** ** The cover mapping of the virtual background *)

Section Cover.

Lemma ratio_pos (a b : Q) : 0 < a -> 0 < b -> 0 < a / b.
Proof. intros Ha Hb. apply Qlt_shift_div_l; lra. Qed.

(** The mapping along the cropped axis: a scale [s >= 1] about the centre. *)
Lemma cover_axis (s x : Q) :
  1 <= s -> 0 <= x <= 1 -> 0 <= (x - (1 - s) / 2) / s <= 1.
Proof.
  intros Hs Hx.
  assert (E : (1 - s) / 2 == (1 - s) * (1 # 2)) by (field).
  split.
  - apply Qle_shift_div_l; lra.
  - apply Qle_shift_div_r; lra.
Qed.

Lemma cover_axis_centre (s : Q) : 0 < s -> (0.5 - (1 - s) / 2) / s == 0.5.
Proof. intros Hs. field. lra. Qed.

(** Both branches of the aspect comparison scale each axis by a factor of
    at least 1 about the centre (the factor is 1 on the uncropped axis). *)
Lemma bgTexCoord_scales u t :
  0 < vx (BlendShader.u_canvasDimensions u) -> 0 < vy (BlendShader.u_canvasDimensions u) ->
  0 < vx (BlendShader.u_bgImageDimensions u) -> 0 < vy (BlendShader.u_bgImageDimensions u) ->
  exists sx sy, 1 <= sx /\ 1 <= sy
    /\ vx (BlendShader.bgTexCoord u t) == (vx t - (1 - sx) / 2) / sx
    /\ vy (BlendShader.bgTexCoord u t) == (vy t - (1 - sy) / 2) / sy.
Proof.
  intros Hcw Hch Hbw Hbh. unfold BlendShader.bgTexCoord. cbv zeta.
  set (ca := vx (BlendShader.u_canvasDimensions u) / vy (BlendShader.u_canvasDimensions u)).
  set (ba := vx (BlendShader.u_bgImageDimensions u) / vy (BlendShader.u_bgImageDimensions u)).
  assert (Hca : 0 < ca) by (apply ratio_pos; assumption).
  assert (Hba : 0 < ba) by (apply ratio_pos; assumption).
  destruct (Qltb ca ba) eqn:E; cbn [vx vy].
  - apply Qltb_true in E. exists (ba / ca), 1.
    split; [apply Qle_shift_div_l; lra|]. split; [lra|]. split; [reflexivity|].
    field.
  - apply Qltb_false in E. exists 1, (ca / ba).
    split; [lra|]. split; [apply Qle_shift_div_l; lra|]. split; [field | reflexivity].
Qed.

(** In virtual-background mode the background texture is sampled at
    [bgTexCoord]. *)
Lemma virtual_background_sample glsl_exp glsl_cos glsl_sin tu u t :
  (BlendShader.u_enabled u =? 0)%Z = false ->
  Qgtb (BlendShader.u_bgBlur u) 0 && Qgtb (BlendShader.u_bgBlurRadius u) 0 = false ->
  BlendShader.main glsl_exp glsl_cos glsl_sin tu u t
  = mix4 (texture2D tu (BlendShader.u_backgroundTexture u) (BlendShader.bgTexCoord u t))
         (texture2D tu (BlendShader.u_frameTexture u) t)
         (smoothstep (BlendShader.u_vbgSmoothstepMin u) (BlendShader.u_vbgSmoothstepMax u)
            (BlendShader.blurredState tu u (Vec2 (vx t) (1 - vy t))
               (v2recip (BlendShader.u_canvasDimensions u)))).
Proof. intros He Hb. unfold BlendShader.main. rewrite He, Hb. reflexivity. Qed.

(** C9.  In virtual-background mode, for positive canvas and background
    dimensions, the background is sampled at [bgTexCoord]; for every canvas
    texture coordinate in the unit square that coordinate lies in the unit
    square, and the canvas centre (0.5, 0.5) maps to the background centre
    (0.5, 0.5). *)
Theorem cover_mapping_in_unit_square u :
  (BlendShader.u_enabled u =? 0)%Z = false ->
  Qgtb (BlendShader.u_bgBlur u) 0 && Qgtb (BlendShader.u_bgBlurRadius u) 0 = false ->
  0 < vx (BlendShader.u_canvasDimensions u) -> 0 < vy (BlendShader.u_canvasDimensions u) ->
  0 < vx (BlendShader.u_bgImageDimensions u) -> 0 < vy (BlendShader.u_bgImageDimensions u) ->
  (forall glsl_exp glsl_cos glsl_sin tu t, exists softMask,
      BlendShader.main glsl_exp glsl_cos glsl_sin tu u t
      = mix4 (texture2D tu (BlendShader.u_backgroundTexture u) (BlendShader.bgTexCoord u t))
             (texture2D tu (BlendShader.u_frameTexture u) t) softMask)
  /\ (forall t, 0 <= vx t <= 1 -> 0 <= vy t <= 1 ->
        0 <= vx (BlendShader.bgTexCoord u t) <= 1
        /\ 0 <= vy (BlendShader.bgTexCoord u t) <= 1)
  /\ vx (BlendShader.bgTexCoord u (Vec2 0.5 0.5)) == 0.5
  /\ vy (BlendShader.bgTexCoord u (Vec2 0.5 0.5)) == 0.5.
Proof.
  intros He Hb Hcw Hch Hbw Hbh. split; [|split].
  - intros glsl_exp glsl_cos glsl_sin tu t. eexists.
    apply virtual_background_sample; assumption.
  - intros t Hx Hy.
    destruct (bgTexCoord_scales u t Hcw Hch Hbw Hbh) as (sx & sy & Hsx & Hsy & Ex & Ey).
    rewrite Ex, Ey. split; apply cover_axis; assumption.
  - destruct (bgTexCoord_scales u (Vec2 0.5 0.5) Hcw Hch Hbw Hbh)
      as (sx & sy & Hsx & Hsy & Ex & Ey).
    rewrite Ex, Ey. cbn [vx vy]. split; apply cover_axis_centre; lra.
Qed.

Lemma cover_mapping_in_unit_square_witness :
  (0 <= vx (BlendShader.bgTexCoord Sample.widescreen (Vec2 0 1)) <= 1
   /\ 0 <= vy (BlendShader.bgTexCoord Sample.widescreen (Vec2 0 1)) <= 1)
  /\ vx (BlendShader.bgTexCoord Sample.widescreen (Vec2 0.5 0.5)) == 0.5
  /\ vy (BlendShader.bgTexCoord Sample.widescreen (Vec2 0.5 0.5)) == 0.5.
Proof.
  destruct (cover_mapping_in_unit_square Sample.widescreen) as (_ & Hin & Hcentre).
  - reflexivity.
  - reflexivity.
  - reflexivity.
  - reflexivity.
  - reflexivity.
  - reflexivity.
  - split; [|exact Hcentre].
    apply (Hin (Vec2 0 1)); split; vm_compute; discriminate.
Defined.

End Cover.

(** ** Running method bodies on a symbolic renderer *)

Section MethodSteps.

Lemma bind_call {B} f (k : unit -> Method B) this :
  bind (call f) k this = k tt (withGl (f (gl this)) this).
Proof. reflexivity. Qed.

Lemma bind_assign {B} f (k : unit -> Method B) this :
  bind (assign f) k this = k tt (f this).
Proof. reflexivity. Qed.

Lemma bind_getThis {B} (k : WebGLRenderer -> Method B) this :
  bind getThis k this = k this this.
Proof. reflexivity. Qed.

Lemma bind_ret {A B} (a : A) (k : A -> Method B) this :
  bind (ret a) k this = k a this.
Proof. reflexivity. Qed.

Lemma bind_throw {A B} e (k : A -> Method B) this :
  bind (throw e) k this = Throw e this.
Proof. reflexivity. Qed.

Lemma bind_assoc {A B C} (m : Method A) (k : A -> Method B) (k' : B -> Method C) this :
  bind (bind m k) k' this = bind m (fun a => bind (k a) k') this.
Proof. unfold bind. destruct (m this); reflexivity. Qed.

Lemma bind_create {B} (k : option WebGLTexture -> Method B) this :
  contextLost (gl this) = false ->
  bind glCreateTexture k this
  = k (Some (Owned (nextName (gl this))))
      (withGl (withStore (Pos.succ (nextName (gl this)))
                 (<[nextName (gl this) :=
                      {| tex_width := 0; tex_height := 0; tex_image := fun _ => black |}]>
                    (textures (gl this)))
                 (S (texturesCreated (gl this))) (texturesDeleted (gl this)) (gl this))
              this).
Proof. intros H. unfold bind, glCreateTexture, createTexture. rewrite H. reflexivity. Qed.

Lemma bind_create_lost {B} (k : option WebGLTexture -> Method B) this :
  contextLost (gl this) = true ->
  bind glCreateTexture k this = k (Some Invalidated) this.
Proof.
  intros H. unfold bind, glCreateTexture, createTexture. rewrite H.
  destruct this; reflexivity.
Qed.

End MethodSteps.

(** One command at a time, on a renderer whose records are spelled out:
    [step] runs the next command of a method body, [glcbn] brings the
    renderer back to record form. *)
Ltac glcbn1 :=
  cbn [
  withGl withBackground withState withStore withTextures withUnits
  withPrograms withFramebuffer withCanvas withDraws withContextLost
  gl storedStateTextures running currentStateIndex backgroundRenderInfo
  activeBackgroundSourceIdentifier
  command deleteTexture activeTexture bindTexture texImage2D useProgram
  uniform1i uniform1f uniform2f bindFramebuffer framebufferTexture2D drawArrays clear
  deleteFramebuffer deleteProgram setCanvasWidth setCanvasHeight
  setStateInt setStateFloat setStateVec2 setBlendInt setBlendFloat setBlendVec2
  attributes contextLost nextName textures activeUnit bindings program
  stateUniforms blendUniforms
  framebufferBound attachment canvas texturesCreated texturesDeleted draws
  width height drawing texture fst snd isSome after returned].

Ltac glcbn :=
  glcbn1;
  unfold withGl, withBackground, withState, withStore, withTextures, withUnits,
    withPrograms, withFramebuffer, withCanvas, withDraws, withContextLost;
  glcbn1.

Ltac step :=
  rewrite ?bind_assoc;
  first [ rewrite bind_call | rewrite bind_assign | rewrite bind_getThis
        | rewrite bind_ret | rewrite bind_throw
        | rewrite bind_create by reflexivity
        | rewrite bind_create_lost by reflexivity ];
  glcbn.

Ltac distinct := intros ?; subst; (lia || congruence || tauto).

Ltac lookups :=
  repeat first
    [ rewrite lookup_insert_eq
    | rewrite lookup_insert_ne by distinct
    | rewrite lookup_delete_ne by distinct ].

Ltac below W3 Hm :=
  repeat first
    [ apply lookup_insert_Some in Hm as [[<- _]|[_ Hm]]; [lia|]
    | apply lookup_delete_Some in Hm as [_ Hm] ];
  apply W3 in Hm; lia.

(** ** The background update *)

Section BackgroundUpdate.

Lemma stored_below this n :
  wellFormed this -> In (Some (Owned n)) (storedStateTextures this) ->
  (n < nextName (gl this))%positive.
Proof.
  intros W Hn. destruct (wf_live this W n Hn) as [tx Htx].
  exact (wf_names this W n tx Htx).
Qed.

(** The update keeps the renderer well formed and touches nothing but the
    background, however it completes. *)
Lemma update_frame src this :
  wellFormed this ->
  wellFormed (after (updateBackgroundIfNeeded src this))
  /\ backgroundOnly this (after (updateBackgroundIfNeeded src this)).
Proof.
  intros W. unfold updateBackgroundIfNeeded. rewrite bind_getThis.
  destruct (cacheHit src this) eqn:Hit.
  { cbn. split; [exact W|]. repeat split; reflexivity. }
  clear Hit. cbv zeta.
  set (id := newIdentifier src). clearbody id.
  pose proof (fun n => stored_below this n W) as Wbelow.
  destruct W as [W1 W2 W3 W4 W5 W6 W7].
  destruct this as [g st run idx info act]. destruct g.
  cbn in W1, W2, W3, W4, W5, W6, W7, Wbelow.
  assert (Hinfo : match info with
          | Some i =>
              (texture i = Invalidated /\ contextLost0 = true)
              \/ exists t, texture i = Owned t /\ (t < nextName0)%positive
                           /\ ~ In (Some (Owned t)) st
          | None => True end).
  { destruct info as [i|]; [exact (W6 i eq_refl) | exact I]. }
  clear W6.
  cbn [backgroundRenderInfo].
  destruct info as [i|];
    [destruct Hinfo as [[Ht ->]|(t & Ht & Hlt & Hnin)]; step; rewrite ?Ht;
     [|destruct (textures0 !! t) eqn:Et; destruct contextLost0 ..]
    |destruct contextLost0];
    (destruct src as [src|];
     [destruct (type src =? "image")%string;
      [|destruct (type src =? "video")%string];
      unfold imageBackground, videoBackground;
      destruct (media src) as [[bitmap|stream]|]
     | ]);
    unfold defaultColorBackground, createColorTexture; cbn [DEFAULT_BG_COLOR];
    repeat (step; rewrite ?Et, ?lookup_insert_eq).
  all: unfold assign, ret; glcbn; glcbn.
  all: split.
  all: try (constructor;
      cbn [gl storedStateTextures running currentStateIndex backgroundRenderInfo
           attributes contextLost nextName textures framebufferBound];
      [ exact W1 | exact W2
      | intros m tx Hm; below W3 Hm
      | exact W4
      | intros m Hm; pose proof (Wbelow m Hm); pose proof (W5 m Hm);
        lookups; try assumption
      | intros info' Hinfo';
        first [ discriminate
              | injection Hinfo' as <-; cbn [texture];
                first [ left; split; reflexivity
                      | right; eexists; split; [reflexivity|]; split; [lia|];
                        intros Hin; apply Wbelow in Hin; lia ] ]
      | exact W7 ]).
  all: try (unfold backgroundOnly;
      cbn [gl storedStateTextures running currentStateIndex backgroundRenderInfo
           contextLost nextName textures framebufferBound canvas draws];
      repeat split; try reflexivity;
      intros m Hm; pose proof (Wbelow m Hm); lookups; reflexivity).
Qed.

Lemma update_hit src this :
  cacheHit src this = true -> updateBackgroundIfNeeded src this = Normal tt this.
Proof.
  intros H. unfold updateBackgroundIfNeeded. rewrite bind_getThis, H. reflexivity.
Qed.

(** A request that is not a cache hit, with media of the kind its type
    needs: the update returns; on a live context one texture is created; a
    constructible request is stored under its own identity, any other
    under the colour key with the default colour. *)
Lemma update_miss src this :
  mediaMatches src = true ->
  cacheHit src this = false ->
  exists this',
    updateBackgroundIfNeeded src this = Normal tt this'
    /\ (contextLost (gl this) = false ->
        texturesCreated (gl this') = S (texturesCreated (gl this)))
    /\ contextLost (gl this') = contextLost (gl this)
    /\ (if constructible src
        then isSome (backgroundRenderInfo this') = true
             /\ activeBackgroundSourceIdentifier this' = Some (newIdentifier src)
        else (exists t, backgroundRenderInfo this' = Some (ColorInfo t DEFAULT_BG_COLOR))
             /\ activeBackgroundSourceIdentifier this'
                = Some (colorIdentifier DEFAULT_BG_COLOR)).
Proof.
  intros Hmedia Hmiss.
  unfold updateBackgroundIfNeeded. rewrite bind_getThis, Hmiss. clear Hmiss. cbv zeta.
  unfold mediaMatches in Hmedia. unfold constructible.
  set (id := newIdentifier src).
  destruct this as [g st run idx info act]. destruct g.
  cbn [backgroundRenderInfo gl contextLost texturesCreated].
  destruct contextLost0;
  (destruct info as [i|];
    [destruct (texture i) as [t|ft|] eqn:Ht;
     [destruct (textures0 !! t) eqn:Et| |] |]);
    (destruct src as [src|];
     [destruct (type src =? "image")%string;
      [|destruct (type src =? "video")%string];
      unfold imageBackground, videoBackground;
      destruct (media src) as [[bitmap|stream]|]; try discriminate Hmedia
     | ]);
    unfold defaultColorBackground, createColorTexture; cbn [DEFAULT_BG_COLOR];
    repeat (step; rewrite ?Ht, ?Et, ?lookup_insert_eq; glcbn).
  all: unfold assign, ret; glcbn; glcbn.
  all: eexists; split; [reflexivity|].
  all: cbn [gl texturesCreated contextLost backgroundRenderInfo
            activeBackgroundSourceIdentifier isSome].
  all: repeat split; eauto; discriminate.
Qed.

(** A request of type image or video that is not a cache hit and does not
    carry media of that kind: the update ends with a [TypeError], before
    the final fallback, and leaves no background render info. *)
Lemma update_throws src this :
  mediaMatches src = false ->
  cacheHit src this = false ->
  exists this',
    updateBackgroundIfNeeded src this = Throw "TypeError" this'
    /\ backgroundRenderInfo this' = None.
Proof.
  intros Hmedia Hmiss.
  unfold updateBackgroundIfNeeded. rewrite bind_getThis, Hmiss. clear Hmiss. cbv zeta.
  unfold mediaMatches in Hmedia.
  set (id := newIdentifier src).
  destruct this as [g st run idx info act]. destruct g.
  cbn [backgroundRenderInfo gl contextLost texturesCreated].
  destruct contextLost0;
  (destruct info as [i|];
    [destruct (texture i) as [t|ft|] eqn:Ht;
     [destruct (textures0 !! t) eqn:Et| |] |]);
    (destruct src as [src|];
     [destruct (type src =? "image")%string;
      [|destruct (type src =? "video")%string];
      unfold imageBackground, videoBackground;
      destruct (media src) as [[bitmap|stream]|]; try discriminate Hmedia
     | try discriminate Hmedia ]);
    repeat (step; rewrite ?Ht, ?Et, ?lookup_insert_eq; glcbn).
  all: unfold throw; glcbn.
  all: eexists; split; reflexivity.
Qed.

Lemma constructible_media src : constructible src = true -> mediaMatches src = true.
Proof.
  unfold constructible, mediaMatches. destruct src as [s|]; [|reflexivity].
  destruct (type s =? "image")%string; [tauto|].
  destruct (type s =? "video")%string; [tauto | discriminate].
Qed.

Lemma sameIdentifier_refl id : sameIdentifier id (Some id) = true.
Proof. apply String.eqb_refl. Qed.

(** C7 (amended).  A request whose identity equals the active identity
    while a background render info is present is a no-op: the renderer is
    left exactly as it was (no texture created or deleted, the render info
    unchanged).  So requesting the same identity twice in a row on a live
    context creates one texture when the request is constructible (no
    source, or an image or video source with its media) and was not active
    before, and none when it already was; the second call is a cache
    hit. *)
Theorem same_identity_is_cached src this :
  (cacheHit src this = true -> updateBackgroundIfNeeded src this = Normal tt this)
  /\ (contextLost (gl this) = false -> constructible src = true ->
      let first := updateBackgroundIfNeeded src this in
      let second := updateBackgroundIfNeeded src (after first) in
      returned first = true
      /\ cacheHit src (after first) = true
      /\ second = Normal tt (after first)
      /\ texturesCreated (gl (after second))
         = (if cacheHit src this then texturesCreated (gl this)
            else S (texturesCreated (gl this)))).
Proof.
  split; [apply update_hit|].
  intros Hlive Hc. cbv zeta.
  destruct (cacheHit src this) eqn:Hit.
  - rewrite (update_hit src this Hit). cbn [after returned].
    rewrite (update_hit src this Hit). cbn [after]. repeat split. exact Hit.
  - destruct (update_miss src this (constructible_media src Hc) Hit)
      as (this' & Hupd & Hcreated & Hlive' & Hres).
    specialize (Hcreated Hlive).
    rewrite Hc in Hres. destruct Hres as [Hinfo Hact].
    rewrite Hupd. cbn [after returned].
    assert (Hit' : cacheHit src this' = true).
    { unfold cacheHit. rewrite Hact, Hinfo, sameIdentifier_refl. reflexivity. }
    rewrite (update_hit src this' Hit'). cbn [after]. repeat split; assumption.
Qed.

Lemma same_identity_is_cached_witness :
  updateBackgroundIfNeeded (Some Sample.imageSource)
    (after (updateBackgroundIfNeeded (Some Sample.imageSource) Sample.fresh))
  = Normal tt (after (updateBackgroundIfNeeded (Some Sample.imageSource) Sample.fresh))
  /\ texturesCreated
       (gl (after (updateBackgroundIfNeeded (Some Sample.imageSource)
                     (after (updateBackgroundIfNeeded (Some Sample.imageSource)
                               Sample.fresh)))))
     = S (texturesCreated (gl Sample.fresh)).
Proof.
  destruct (same_identity_is_cached (Some Sample.imageSource) Sample.fresh)
    as [_ Htwice].
  destruct Htwice as (_ & _ & Hsecond & Hcreated); [reflexivity | reflexivity |].
  split; [exact Hsecond | exact Hcreated].
Defined.

(** C7 as stated fails for a request with an unknown type tag: the default
    colour is stored under the colour key, not under the request's URL, so
    the same request is not a cache hit the second time: two textures are
    created and one is deleted. *)
Lemma unknown_type_requested_twice :
  let first := updateBackgroundIfNeeded (Some Sample.unknownSource) Sample.fresh in
  let second := updateBackgroundIfNeeded (Some Sample.unknownSource) (after first) in
  cacheHit (Some Sample.unknownSource) (after first) = false
  /\ texturesCreated (gl (after second)) = S (S (texturesCreated (gl Sample.fresh)))
  /\ texturesDeleted (gl (after second)) = S (texturesDeleted (gl Sample.fresh)).
Proof. vm_compute. repeat split. Qed.




End BackgroundUpdate.

(** ** The two passes of an effect frame, and the pass-through frame *)

Section Passes.

Lemma passes_run vf opts cat conf selfie wi this nr nw txr :
  wellFormed this ->
  contextLost (gl this) = false ->
  In (Some (Owned nr)) (storedStateTextures this) ->
  In (Some (Owned nw)) (storedStateTextures this) ->
  nr <> nw ->
  textures (gl this) !! nr = Some txr ->
  exists this',
    (stateUpdatePass (displayWidth vf) (displayHeight vf) opts cat conf selfie
                     (Some (Owned nr)) (Some (Owned nw)) ;;
     blendingPass vf (displayWidth vf) (displayHeight vf) opts wi)%method this
    = Normal tt this'
    /\ wellFormed this'
    /\ effectFrame vf opts cat conf selfie nr nw txr this this'.
Proof.
  intros W Hlost Hr Hw Hne Etr.
  pose proof (fun n => stored_below this n W) as Wbelow.
  destruct (wf_live this W nw Hw) as [txw Etw].
  assert (Hinfo : match backgroundRenderInfo this with
          | Some i => exists t, texture i = Owned t /\ (t < nextName (gl this))%positive
                        /\ ~ In (Some (Owned t)) (storedStateTextures this)
          | None => True end).
  { destruct (backgroundRenderInfo this) as [i|] eqn:E; [|exact I].
    destruct (wf_background this W i E) as [[_ Hl]|H]; [congruence | exact H]. }
  destruct W as [W1 W2 W3 W4 W5 W6 W7]. clear W6.
  destruct this as [g st run idx info act]. destruct g.
  destruct stateUniforms0, blendUniforms0.
  cbn in W1, W2, W3, W4, W5, W7, Wbelow, Hlost, Hr, Hw, Etr, Etw, Hinfo. subst.
  pose proof (Wbelow nr Hr) as Hrlt. pose proof (Wbelow nw Hw) as Hwlt.
  unfold stateUpdatePass, blendingPass, bindBackground.
  destruct info as [[t' w' h' u'|t' u' m' c'|t' c']|];
    [destruct Hinfo as (t & Ht & Hlt & Hnin); cbn [texture] in Ht; subst t';
     destruct (textures0 !! t) eqn:Et ..|].
  all: repeat (step; lookups; rewrite ?Etw, ?Et; glcbn).
  all: unfold call, assign; glcbn.
  all: eexists; split; [reflexivity|].
  all: split.
  all: try (constructor;
      cbn [gl storedStateTextures running currentStateIndex backgroundRenderInfo
           attributes contextLost nextName textures framebufferBound];
      [ exact W1 | reflexivity
      | intros m tx Hm; below W3 Hm
      | exact W4
      | intros m Hm; pose proof (Wbelow m Hm); pose proof (W5 m Hm);
        destruct (decide (m = nw)) as [->|]; lookups; eauto
      | intros info' Hinfo';
        first [ discriminate
              | injection Hinfo' as <-; cbn [texture]; right;
                eexists; split; [reflexivity|]; split; [lia|]; assumption ]
      | exact W7 ]).
  all: unfold effectFrame;
    cbn [gl storedStateTextures running currentStateIndex backgroundRenderInfo
         activeBackgroundSourceIdentifier
         contextLost nextName textures framebufferBound canvas draws width height
         texturesCreated texturesDeleted];
    repeat match goal with |- _ /\ _ => split end; try reflexivity.
  all: try (lookups; exact Etr).
  all: eexists; split; [lookups; reflexivity|]; repeat split.
  all: try (intros tc ->); try destruct cat; try destruct conf;
    unfold boundImages; cbn [bindings textures imageOf];
    lookups; cbn [bindings textures imageOf]; lookups; rewrite ?Etr; reflexivity.
Qed.

(** On a lost context every command is ignored. *)
Lemma passes_lost vf opts cat conf selfie wi this prev new :
  contextLost (gl this) = true ->
  (stateUpdatePass (displayWidth vf) (displayHeight vf) opts cat conf selfie prev new ;;
   blendingPass vf (displayWidth vf) (displayHeight vf) opts wi)%method this
  = Normal tt this.
Proof.
  intros Hlost.
  destruct this as [g st run idx info act]. destruct g.
  cbn in Hlost. subst.
  unfold stateUpdatePass, blendingPass, bindBackground.
  destruct info as [[t' w' h' u'|t' u' m' c'|t' c']|]; repeat step; reflexivity.
Qed.

Lemma passthrough_lost vf this :
  contextLost (gl this) = true -> passthrough vf this = Normal tt this.
Proof.
  intros Hlost.
  destruct this as [g st run idx info act]. destruct g.
  cbn in Hlost. subst.
  unfold passthrough. repeat step. reflexivity.
Qed.

Lemma passthrough_run vf this :
  wellFormed this ->
  contextLost (gl this) = false ->
  exists this',
    passthrough vf this = Normal tt this'
    /\ wellFormed this'
    /\ passthroughFrame vf this this'.
Proof.
  intros W Hlost.
  pose proof (fun n => stored_below this n W) as Wbelow.
  destruct W as [W1 W2 W3 W4 W5 W6 W7].
  destruct this as [g st run idx info act]. destruct g.
  destruct stateUniforms0, blendUniforms0.
  cbn in W1, W2, W3, W4, W5, W6, W7, Wbelow, Hlost. subst.
  unfold passthrough.
  repeat (step; lookups; glcbn).
  unfold call, assign; glcbn.
  eexists; split; [reflexivity|]. split.
  - constructor;
      cbn [gl storedStateTextures running currentStateIndex backgroundRenderInfo
           attributes contextLost nextName textures framebufferBound].
    + exact W1.
    + reflexivity.
    + intros m tx Hm; below W3 Hm.
    + exact W4.
    + intros m Hm. pose proof (Wbelow m Hm). pose proof (W5 m Hm). lookups. assumption.
    + intros info' Hinfo'.
      destruct (W6 info' Hinfo') as [[_ Hl]|(t & Ht & Hlt & Hnin)]; [discriminate|].
      right. exists t. split; [exact Ht|]. split; [lia | exact Hnin].
    + exact W7.
  - unfold passthroughFrame;
      cbn [gl storedStateTextures running currentStateIndex backgroundRenderInfo
         activeBackgroundSourceIdentifier
         contextLost nextName textures framebufferBound canvas draws width height
         drawing texturesCreated texturesDeleted];
      repeat match goal with |- _ /\ _ => split end; try reflexivity.
    + intros m Hm. lookups. reflexivity.
    + do 2 eexists. split; [reflexivity|]. split; [reflexivity|].
      cbn [BlendShader.u_frameTexture]. unfold boundImages. cbn [bindings textures imageOf].
      lookups. cbn [bindings textures imageOf]. lookups. reflexivity.
Qed.

End Passes.

(** ** [render] by cases *)

Section RenderCases.

Lemma resized_fields vf this :
  storedStateTextures (resized vf this) = storedStateTextures this
  /\ running (resized vf this) = running this
  /\ currentStateIndex (resized vf this) = currentStateIndex this
  /\ backgroundRenderInfo (resized vf this) = backgroundRenderInfo this
  /\ activeBackgroundSourceIdentifier (resized vf this)
     = activeBackgroundSourceIdentifier this
  /\ contextLost (gl (resized vf this)) = contextLost (gl this)
  /\ textures (gl (resized vf this)) = textures (gl this)
  /\ nextName (gl (resized vf this)) = nextName (gl this)
  /\ framebufferBound (gl (resized vf this)) = framebufferBound (gl this)
  /\ draws (gl (resized vf this)) = draws (gl this)
  /\ texturesCreated (gl (resized vf this)) = texturesCreated (gl this)
  /\ texturesDeleted (gl (resized vf this)) = texturesDeleted (gl this)
  /\ width (canvas (gl (resized vf this))) = displayWidth vf
  /\ height (canvas (gl (resized vf this))) = displayHeight vf.
Proof.
  unfold resized.
  destruct (negb _ || negb _) eqn:E.
  - repeat split; reflexivity.
  - apply orb_false_iff in E as [Ew Eh].
    apply negb_false_iff in Ew, Eh. apply Z.eqb_eq in Ew, Eh.
    repeat split; assumption.
Qed.

Lemma resized_wf vf this : wellFormed this -> wellFormed (resized vf this).
Proof.
  intros [W1 W2 W3 W4 W5 W6 W7]. unfold resized.
  destruct (negb _ || negb _); constructor; assumption.
Qed.

Lemma render_closed vf opts cat conf selfie this :
  running this = false -> render vf opts cat conf selfie this = Normal tt this.
Proof. intros H. unfold render. rewrite bind_getThis, H. reflexivity. Qed.

Lemma render_running vf opts cat conf selfie this :
  running this = true ->
  render vf opts cat conf selfie this
  = match cat, conf with
    | Some categoryTexture, Some confidenceTexture =>
        (updateBackgroundIfNeeded (backgroundSource opts) ;;
         stateUpdatePass (displayWidth vf) (displayHeight vf) opts
           categoryTexture confidenceTexture selfie
           (element (storedStateTextures this) (currentStateIndex this))
           (element (storedStateTextures this) (Z.rem (currentStateIndex this + 1) 2)) ;;
         blendingPass vf (displayWidth vf) (displayHeight vf) opts
           (Z.rem (currentStateIndex this + 1) 2) ;;
         assign (fun this' =>
                   withState (storedStateTextures this') (running this')
                     (Z.rem (currentStateIndex this + 1) 2) this'))%method
          (resized vf this)
    | _, _ => passthrough vf (resized vf this)
    end.
Proof.
  intros H. unfold render. rewrite bind_getThis, H. cbn [negb].
  unfold resized.
  destruct (negb _ || negb _).
  - rewrite bind_assoc, bind_assign, bind_assign.
    destruct cat, conf; try reflexivity.
  - rewrite bind_ret. destruct cat, conf; reflexivity.
Qed.

Lemma passes_then {B} vf opts cat conf selfie prev new wi (m : Method B) this :
  (stateUpdatePass (displayWidth vf) (displayHeight vf) opts cat conf selfie prev new ;;
   blendingPass vf (displayWidth vf) (displayHeight vf) opts wi ;; m)%method this
  = bind (stateUpdatePass (displayWidth vf) (displayHeight vf) opts cat conf selfie prev new ;;
          blendingPass vf (displayWidth vf) (displayHeight vf) opts wi)%method
         (fun _ => m) this.
Proof. rewrite bind_assoc. reflexivity. Qed.

Lemma passes_outcome {B} vf opts cat conf selfie prev new wi (k : unit -> Method B)
    this this' :
  (stateUpdatePass (displayWidth vf) (displayHeight vf) opts cat conf selfie prev new ;;
   blendingPass vf (displayWidth vf) (displayHeight vf) opts wi)%method this
  = Normal tt this' ->
  bind (stateUpdatePass (displayWidth vf) (displayHeight vf) opts cat conf selfie prev new ;;
        blendingPass vf (displayWidth vf) (displayHeight vf) opts wi)%method k this
  = k tt this'.
Proof. intros H. unfold bind at 1. rewrite H. reflexivity. Qed.

(** With both mask textures: the background update, and if it returns, the
    two passes and the index assignment. *)
Lemma render_effect_outcome vf opts cat conf selfie this :
  running this = true ->
  render vf opts (Some cat) (Some conf) selfie this
  = match updateBackgroundIfNeeded (backgroundSource opts) (resized vf this) with
    | Normal _ this1 =>
        bind (stateUpdatePass (displayWidth vf) (displayHeight vf) opts cat conf selfie
                (element (storedStateTextures this) (currentStateIndex this))
                (element (storedStateTextures this) (Z.rem (currentStateIndex this + 1) 2)) ;;
              blendingPass vf (displayWidth vf) (displayHeight vf) opts
                (Z.rem (currentStateIndex this + 1) 2))%method
             (fun _ => assign (fun this' =>
                   withState (storedStateTextures this') (running this')
                     (Z.rem (currentStateIndex this + 1) 2) this'))
             this1
    | Throw e this1 => Throw e this1
    end.
Proof.
  intros Hrun. rewrite render_running by exact Hrun. unfold bind at 1.
  destruct (updateBackgroundIfNeeded _ _); [|reflexivity].
  apply passes_then.
Qed.

Lemma render_returns vf opts cat conf selfie this :
  running this = true ->
  returned (render vf opts (Some cat) (Some conf) selfie this) = true ->
  exists this1,
    updateBackgroundIfNeeded (backgroundSource opts) (resized vf this) = Normal tt this1.
Proof.
  intros Hrun Hret. rewrite render_effect_outcome in Hret by exact Hrun.
  destruct (updateBackgroundIfNeeded (backgroundSource opts) (resized vf this))
    as [[] this1|e this1]; [eauto | discriminate].
Qed.

Lemma next_index (idx : Z) :
  idx = 0%Z \/ idx = 1%Z ->
  (Z.rem (idx + 1) 2 = 0%Z \/ Z.rem (idx + 1) 2 = 1%Z) /\ Z.rem (idx + 1) 2 <> idx.
Proof. intros [->| ->]; cbn; split; (auto || discriminate). Qed.

(** While the renderer runs, the index and its successor select the two
    distinct state textures. *)
Lemma state_pair this :
  wellFormed this -> running this = true ->
  exists nr nw,
    element (storedStateTextures this) (currentStateIndex this) = Some (Owned nr)
    /\ element (storedStateTextures this) (Z.rem (currentStateIndex this + 1) 2)
       = Some (Owned nw)
    /\ nr <> nw
    /\ In (Some (Owned nr)) (storedStateTextures this)
    /\ In (Some (Owned nw)) (storedStateTextures this).
Proof.
  intros W Hrun. destruct (wf_pair this W Hrun) as (a & b & Hst & Hab).
  rewrite Hst. destruct (wf_index this W) as [-> | ->]; cbn.
  - exists a, b. repeat split; auto.
  - exists b, a. repeat split; auto.
Qed.

Lemma withState_wf this idx :
  wellFormed this -> idx = 0%Z \/ idx = 1%Z ->
  wellFormed (withState (storedStateTextures this) (running this) idx this).
Proof. intros [W1 W2 W3 W4 W5 W6 W7] H. constructor; assumption. Qed.

(** An effect frame on a live context, once the background is in place. *)
Lemma render_effect_live vf opts cat conf selfie this this1 :
  wellFormed this -> running this = true -> contextLost (gl this) = false ->
  updateBackgroundIfNeeded (backgroundSource opts) (resized vf this) = Normal tt this1 ->
  exists nr nw txr this2,
    element (storedStateTextures this) (currentStateIndex this) = Some (Owned nr)
    /\ element (storedStateTextures this) (Z.rem (currentStateIndex this + 1) 2)
       = Some (Owned nw)
    /\ nr <> nw
    /\ textures (gl this) !! nr = Some txr
    /\ render vf opts (Some cat) (Some conf) selfie this
       = Normal tt (withState (storedStateTextures this2) (running this2)
                      (Z.rem (currentStateIndex this + 1) 2) this2)
    /\ wellFormed this2
    /\ backgroundOnly (resized vf this) this1
    /\ effectFrame vf opts cat conf selfie nr nw txr this1 this2.
Proof.
  intros W Hrun Hlive Hupd.
  destruct (state_pair this W Hrun) as (nr & nw & Hr & Hw & Hne & Inr & Inw).
  destruct (wf_live this W nr Inr) as [txr Etr].
  pose proof (resized_fields vf this)
    as (Rst & Rrun & Ridx & Rinfo & Ract & Rlost & Rtex & Rnext & Rfb & Rdraws & _).
  destruct (update_frame (backgroundSource opts) (resized vf this) (resized_wf vf this W))
    as [W1 B1].
  rewrite Hupd in W1, B1. cbn [after] in W1, B1.
  pose proof B1 as (Bst & Brun & Bidx & Blost & Bcanvas & Bdraws & Btex).
  destruct (passes_run vf opts cat conf selfie (Z.rem (currentStateIndex this + 1) 2)
              this1 nr nw txr W1) as (this2 & Hpass & W2 & E2).
  { congruence. }
  { rewrite Bst, Rst. exact Inr. }
  { rewrite Bst, Rst. exact Inw. }
  { exact Hne. }
  { rewrite Btex by (rewrite Rst; exact Inr). rewrite Rtex. exact Etr. }
  exists nr, nw, txr, this2.
  repeat match goal with |- _ /\ _ => split end; try assumption.
  rewrite render_effect_outcome by exact Hrun.
  rewrite Hupd, Hr, Hw. rewrite (passes_outcome _ _ _ _ _ _ _ _ _ _ _ Hpass).
  reflexivity.
Qed.

End RenderCases.

(** ** The renderer invariant *)

Section Preservation.

Lemma render_wf vf opts cat conf selfie this :
  wellFormed this -> wellFormed (after (render vf opts cat conf selfie this)).
Proof.
  intros W. destruct (running this) eqn:Hrun.
  2: { rewrite render_closed by exact Hrun. exact W. }
  pose proof (resized_wf vf this W) as WR.
  pose proof (resized_fields vf this)
    as (Rst & Rrun & Ridx & Rinfo & Ract & Rlost & Rtex & Rnext & Rfb & Rdraws & _).
  assert (Hpt : wellFormed (after (passthrough vf (resized vf this)))).
  { destruct (contextLost (gl (resized vf this))) eqn:Hl.
    - rewrite passthrough_lost by exact Hl. exact WR.
    - destruct (passthrough_run vf (resized vf this) WR Hl) as (this' & -> & W' & _).
      exact W'. }
  rewrite render_running by exact Hrun.
  destruct cat as [cat|]; [|exact Hpt]. destruct conf as [conf|]; [|exact Hpt].
  destruct (update_frame (backgroundSource opts) (resized vf this) WR) as [W1 B1].
  unfold bind at 1.
  destruct (updateBackgroundIfNeeded (backgroundSource opts) (resized vf this))
    as [[] this1|e this1]; cbn [after] in W1, B1 |- *; [|exact W1].
  pose proof B1 as (Bst & Brun & Bidx & Blost & Bcanvas & Bdraws & Btex).
  rewrite passes_then. unfold bind at 1.
  destruct (contextLost (gl this1)) eqn:Hl.
  - rewrite passes_lost by exact Hl. cbn [after assign].
    apply withState_wf; [exact W1|]. apply next_index, (wf_index this W).
  - destruct (state_pair this W Hrun) as (nr & nw & Hr & Hw & Hne & Inr & Inw).
    destruct (wf_live this1 W1 nr) as [txr Etr]; [rewrite Bst, Rst; exact Inr|].
    rewrite Hr, Hw.
    destruct (passes_run vf opts cat conf selfie (Z.rem (currentStateIndex this + 1) 2)
                this1 nr nw txr W1 Hl) as (this2 & -> & W2 & _);
      try assumption; try (rewrite Bst, Rst; assumption).
    cbn [after assign].
    apply withState_wf; [exact W2|]. apply next_index, (wf_index this W).
Qed.

Lemma constructor_wf cv : wellFormed (constructor cv).
Proof.
  unfold constructor, newStateTexture, getContext, createTexture.
  glcbn. rewrite !lookup_insert_eq. glcbn.
  rewrite lookup_insert_eq. glcbn. rewrite lookup_insert_eq. glcbn.
  constructor;
    cbn [gl storedStateTextures running currentStateIndex backgroundRenderInfo
         attributes alpha contextLost nextName textures framebufferBound].
  - left; reflexivity.
  - reflexivity.
  - intros m tx Hm.
    repeat (apply lookup_insert_Some in Hm as [[<- _]|[_ Hm]]; [lia|]).
    rewrite lookup_empty in Hm. discriminate.
  - intros _. exists 1%positive, 2%positive. split; [reflexivity | discriminate].
  - intros m [Hm|[Hm|[]]]; injection Hm as <-; lookups; eauto.
  - discriminate.
  - reflexivity.
Qed.

Lemma close_spec this :
  wellFormed this ->
  wellFormed (after (close this))
  /\ currentStateIndex (after (close this)) = currentStateIndex this
  /\ running (after (close this)) = false
  /\ draws (gl (after (close this))) = draws (gl this).
Proof.
  intros W. unfold close. rewrite bind_getThis.
  destruct (running this) eqn:Hrun; cbn [negb].
  2: { cbn [ret after]. split; [exact W|]. repeat split; auto. }
  destruct (wf_pair this W Hrun) as (a & b & Hst & Hab).
  assert (Hinfo : match backgroundRenderInfo this with
          | Some i => texture i = Invalidated \/ exists t, texture i = Owned t
          | None => True end).
  { destruct (backgroundRenderInfo this) as [i|] eqn:E; [|exact I].
    destruct (wf_background this W i E) as [[Ht _]|(t & Ht & _)]; eauto. }
  destruct W as [W1 W2 W3 W4 W5 W6 W7]. clear W4 W5 W6.
  destruct this as [g st run idx info act]. destruct g.
  cbn in W1, W2, W3, W7, Hrun, Hst, Hinfo. subst.
  destruct contextLost0; destruct program0 as [[|]|];
    (destruct info as [i|];
     [destruct Hinfo as [Ht|(t & Ht)] |]);
    do 7 step; cbn [fold_right];
    repeat first
      [ step; rewrite ?Ht; glcbn
      | match goal with
        | |- context [match ?m !! ?k with _ => _ end] => destruct (m !! k) eqn:?
        end; glcbn ].
  all: unfold assign; glcbn.
  all: split;
    [ constructor;
      cbn [gl storedStateTextures running currentStateIndex backgroundRenderInfo
           attributes contextLost nextName textures framebufferBound];
      [ exact W1 | reflexivity
      | intros m tx Hm; below W3 Hm
      | discriminate
      | intros m []
      | discriminate
      | exact W7 ]
    | repeat split ].
Qed.

Lemma writerWrite_wf vf this : wellFormed this -> wellFormed (writerWrite vf this).
Proof.
  intros W. unfold writerWrite.
  destruct (backgroundRenderInfo this) as [[t' w' h' u'|t' u' m' c'|t' c']|] eqn:E;
    try exact W.
  pose proof (wf_background this W _ E) as Hb.
  destruct W as [W1 W2 W3 W4 W5 W6 W7].
  constructor; try assumption.
  intros info Hinfo. cbn in Hinfo. injection Hinfo as <-.
  exact Hb.
Qed.

Lemma loseContext_wf this : wellFormed this -> wellFormed (loseContext this).
Proof.
  intros [W1 W2 W3 W4 W5 W6 W7]. constructor; try assumption.
  intros info Hinfo. destruct (W6 info Hinfo) as [[Ht _]|H].
  - left. split; [exact Ht | reflexivity].
  - right. exact H.
Qed.

Lemma reachable_wf this : reachable this -> wellFormed this.
Proof.
  induction 1.
  - apply constructor_wf.
  - apply render_wf; assumption.
  - apply close_spec; assumption.
  - apply writerWrite_wf; assumption.
  - apply loseContext_wf; assumption.
Qed.

End Preservation.

(** ** The state-update pass inside [render] *)

Section StateUpdatePass.

(** C1 (amended).  Every render call that runs the state-update pass (a
    running renderer on a live context, both mask textures given, the call
    returns) leaves in the write buffer, at every pixel, the value
    [alpha * category + (1 - alpha) * blurredPrevious] of [Spec.maskValue]
    as an 8-bit value: clamped to [0, 1] and rounded to the nearest
    multiple of 1/255, hence within 1/510 of the formula whenever the
    formula lies in [0, 1].  In the formula category and confidence are
    inverted under the polarity flag, a positive category is pinned to 1
    with the confidence inverted, alpha is the smoothing factor times the
    smoothstep of the confidence (then the stickiness adjustment), and
    blurredPrevious is the 4/2/1 weighted 3x3 average over 16 of the read
    buffer at offsets of [stateBlurRadius] texels. *)
Theorem state_update_writes_spec vf opts category confidence selfie this :
  reachable this -> running this = true -> contextLost (gl this) = false ->
  returned (render vf opts (Some (Foreign category)) (Some (Foreign confidence))
              selfie this) = true ->
  exists nr nw previous written,
    element (storedStateTextures this) (currentStateIndex this) = Some (Owned nr)
    /\ element (storedStateTextures this) (Z.rem (currentStateIndex this + 1) 2)
       = Some (Owned nw)
    /\ textures (gl this) !! nr = Some previous
    /\ textures (gl (after (render vf opts (Some (Foreign category))
                              (Some (Foreign confidence)) selfie this))) !! nw
       = Some written
    /\ forall w,
         let value :=
           Spec.maskValue (polarityFlag selfie)
             (smoothing opts) (smoothstepMin opts) (smoothstepMax opts)
             (orElse (stateBlurRadius opts) 6.0)
             (Vec2 (inject_Z (displayWidth vf)) (inject_Z (displayHeight vf)))
             (tex_image category) (tex_image confidence) (tex_image previous)
             (v_texCoord w) in
         cr (tex_image written w) == fromByte (toByte value)
         /\ (0 <= value <= 1 -> Qabs (cr (tex_image written w) - value) <= 1 # 510).
Proof.
  intros Hreach Hrun Hlive Hret.
  pose proof (reachable_wf this Hreach) as W.
  destruct (render_returns vf opts _ _ selfie this Hrun Hret) as [this1 Hupd].
  destruct (render_effect_live vf opts (Foreign category) (Foreign confidence) selfie
              this this1 W Hrun Hlive Hupd)
    as (nr & nw & previous & this2 & Hr & Hw & Hne & Epr & Hrender & W2 & B1 & E2).
  destruct E2 as (_ & _ & _ & _ & _ & _ & _ & (tu & Ew & Hcat & Hconf & Hprev) & _).
  exists nr, nw, previous. eexists.
  split; [exact Hr|]. split; [exact Hw|]. split; [exact Epr|].
  rewrite Hrender. cbn [after gl withState]. split; [exact Ew|].
  intros w. cbv zeta. cbn [tex_image rgba8 cr].
  assert (E : cr (StateUpdateShader.main tu
                    (stateUpdateUniforms (displayWidth vf) (displayHeight vf) opts selfie)
                    (v_texCoord w))
              == Spec.maskValue (polarityFlag selfie)
                   (smoothing opts) (smoothstepMin opts) (smoothstepMax opts)
                   (orElse (stateBlurRadius opts) 6.0)
                   (Vec2 (inject_Z (displayWidth vf)) (inject_Z (displayHeight vf)))
                   (tex_image category) (tex_image confidence) (tex_image previous)
                   (v_texCoord w)).
  { rewrite main_refines_spec. unfold Signal.flag.
    cbn [StateUpdateShader.u_selfieModel StateUpdateShader.u_smoothingFactor
         StateUpdateShader.u_smoothstepMin StateUpdateShader.u_smoothstepMax
         StateUpdateShader.u_stateBlurRadius StateUpdateShader.u_resolution
         StateUpdateShader.u_categoryTexture StateUpdateShader.u_confidenceTexture
         StateUpdateShader.u_prevStateTexture stateUpdateUniforms].
    rewrite (Hcat category eq_refl), (Hconf confidence eq_refl), Hprev.
    destruct selfie as [[|]|]; reflexivity. }
  split.
  - apply stored_comp. exact E.
  - intros Hunit. rewrite (stored_comp _ _ E). apply stored_close. exact Hunit.
Qed.

Lemma state_update_writes_spec_witness :
  exists nr nw previous written,
    element (storedStateTextures Sample.fresh) (currentStateIndex Sample.fresh)
    = Some (Owned nr)
    /\ element (storedStateTextures Sample.fresh)
         (Z.rem (currentStateIndex Sample.fresh + 1) 2) = Some (Owned nw)
    /\ textures (gl Sample.fresh) !! nr = Some previous
    /\ textures (gl Sample.afterPersonFrame) !! nw = Some written
    /\ forall w,
         let value :=
           Spec.maskValue false 0.7 0.25 0.85 6.0 (Vec2 (inject_Z 2) (inject_Z 2))
             (tex_image (Sample.mask 1)) (tex_image (Sample.mask 0))
             (tex_image previous) (v_texCoord w) in
         cr (tex_image written w) == fromByte (toByte value)
         /\ (0 <= value <= 1 -> Qabs (cr (tex_image written w) - value) <= 1 # 510).
Proof.
  apply (state_update_writes_spec (Sample.frame 2 2) Sample.options
           (Sample.mask 1) (Sample.mask 0) None Sample.fresh).
  - apply reach_constructor.
  - reflexivity.
  - reflexivity.
  - vm_compute. reflexivity.
Defined.

(** C1 as stated fails because the write buffer holds 8-bit values.  On a
    newly constructed renderer, one effect frame with category 1 and
    confidence 0 at every pixel: with the smoothing factor 2 the formula
    gives 2 and the write buffer holds 1; with the defaults the formula
    gives 0.7 and the write buffer holds 179/255. *)
Lemma write_buffer_holds_eight_bit_values :
  exists previous clamped rounded,
    Scenario.currentMask Sample.fresh = Some previous
    /\ returned (render (Sample.frame 2 2) Sample.oversmoothedOptions
                   (Some (Foreign (Sample.mask 1))) (Some (Foreign (Sample.mask 0)))
                   None Sample.fresh) = true
    /\ Scenario.currentMask
         (after (render (Sample.frame 2 2) Sample.oversmoothedOptions
                   (Some (Foreign (Sample.mask 1))) (Some (Foreign (Sample.mask 0)))
                   None Sample.fresh)) = Some clamped
    /\ Spec.maskValue false 2 0.25 0.85 6.0 (Vec2 (inject_Z 2) (inject_Z 2))
         (tex_image (Sample.mask 1)) (tex_image (Sample.mask 0))
         (tex_image previous) (v_texCoord (Vec2 (1 # 2) (1 # 2))) == 2
    /\ cr (tex_image clamped (Vec2 (1 # 2) (1 # 2))) == 1
    /\ returned (render (Sample.frame 2 2) Sample.options
                   (Some (Foreign (Sample.mask 1))) (Some (Foreign (Sample.mask 0)))
                   None Sample.fresh) = true
    /\ Scenario.currentMask Sample.afterPersonFrame = Some rounded
    /\ Spec.maskValue false 0.7 0.25 0.85 6.0 (Vec2 (inject_Z 2) (inject_Z 2))
         (tex_image (Sample.mask 1)) (tex_image (Sample.mask 0))
         (tex_image previous) (v_texCoord (Vec2 (1 # 2) (1 # 2))) == 0.7
    /\ cr (tex_image rounded (Vec2 (1 # 2) (1 # 2))) == 179 # 255.
Proof.
  do 3 eexists.
  split; [vm_compute; reflexivity|].
  split; [vm_compute; reflexivity|].
  split; [vm_compute; reflexivity|].
  split; [vm_compute; reflexivity|].
  split; [vm_compute; reflexivity|].
  split; [vm_compute; reflexivity|].
  split; [vm_compute; reflexivity|].
  split; vm_compute; reflexivity.
Qed.

End StateUpdatePass.

(** ** Frames without masks *)

Section Passthrough.

Lemma rgba8_again (c : vec4) : rgba8 (rgba8 c) = rgba8 c.
Proof.
  unfold rgba8. cbn [cr cg cb ca].
  rewrite !toByte_fromByte by apply toByte_range. reflexivity.
Qed.

(** C3. A frame rendered without the pair of mask textures appears on the
    canvas unchanged: the canvas takes the frame's size and shows, at every
    point, the frame's pixel at the same point ([v_texCoord] only changes
    the origin of the vertical axis from the window's bottom to the frame's
    top) as the opaque 8-bit colour the canvas holds; for a frame whose
    pixels are opaque 8-bit colours that is the frame's pixel itself, in
    all four channels.  The draw reads the frame's texture unit alone:
    whatever the other units hold (mask state, background), the shader's
    output is the same; and the mask state, the index and the background
    are left as they were. *)
Theorem passthrough_is_identity vf opts category confidence selfie this :
  reachable this -> running this = true -> contextLost (gl this) = false ->
  category = None \/ confidence = None ->
  let this' := after (render vf opts category confidence selfie this) in
  (forall glsl_exp glsl_cos glsl_sin w,
      canvasPixel glsl_exp glsl_cos glsl_sin (gl this') w
      = opaque (rgba8 (frameImage vf (v_texCoord w))))
  /\ ((forall p, v4eq (opaque (rgba8 (frameImage vf p))) (frameImage vf p)) ->
      forall glsl_exp glsl_cos glsl_sin w,
        v4eq (canvasPixel glsl_exp glsl_cos glsl_sin (gl this') w)
             (frameImage vf (v_texCoord w)))
  /\ (exists tu u,
        drawing (canvas (gl this')) = BlendDraw tu u
        /\ forall tu',
             tu' (BlendShader.u_frameTexture u) = tu (BlendShader.u_frameTexture u) ->
             forall glsl_exp glsl_cos glsl_sin t,
               BlendShader.main glsl_exp glsl_cos glsl_sin tu' u t
               = BlendShader.main glsl_exp glsl_cos glsl_sin tu u t)
  /\ width (canvas (gl this')) = displayWidth vf
  /\ height (canvas (gl this')) = displayHeight vf
  /\ currentStateIndex this' = currentStateIndex this
  /\ storedStateTextures this' = storedStateTextures this
  /\ backgroundRenderInfo this' = backgroundRenderInfo this
  /\ (forall n, (n < nextName (gl this))%positive ->
        textures (gl this') !! n = textures (gl this) !! n).
Proof.
  intros Hreach Hrun Hlive Hnone.
  pose proof (reachable_wf this Hreach) as W.
  pose proof (resized_fields vf this)
    as (Rst & Rrun & Ridx & Rinfo & Ract & Rlost & Rtex & Rnext & Rfb & Rdraws
        & _ & _ & Rw & Rh).
  assert (Hrender : render vf opts category confidence selfie this
                    = passthrough vf (resized vf this)).
  { rewrite render_running by exact Hrun.
    destruct Hnone as [-> | ->]; [reflexivity | destruct category; reflexivity]. }
  destruct (passthrough_run vf (resized vf this) (resized_wf vf this W))
    as (this' & Hpass & W' & P); [congruence|].
  destruct P as (Pst & Prun & Pidx & Pinfo & Pact & Plost & Ptex & Pdraws & Pw & Ph
                 & (tu & u & Hdraw & Henabled & Hframe)).
  cbv zeta. rewrite Hrender, Hpass. cbn [after].
  assert (Hpixel : forall glsl_exp glsl_cos glsl_sin w,
             canvasPixel glsl_exp glsl_cos glsl_sin (gl this') w
             = opaque (rgba8 (frameImage vf (v_texCoord w)))).
  { intros glsl_exp glsl_cos glsl_sin w. unfold canvasPixel, drawingBuffer.
    rewrite (wf_opaque this' W'), Hdraw.
    unfold BlendShader.main. rewrite Henabled. cbn [Z.eqb].
    unfold texture2D. rewrite Hframe. cbn [tex_image videoFrameTexture].
    rewrite rgba8_again. reflexivity. }
  split; [exact Hpixel|].
  repeat match goal with |- _ /\ _ => split end; try congruence.
  - intros Hframe8 glsl_exp glsl_cos glsl_sin w. rewrite Hpixel. apply Hframe8.
  - exists tu, u. split; [exact Hdraw|].
    intros tu' Htu' glsl_exp glsl_cos glsl_sin t.
    unfold BlendShader.main. rewrite Henabled. cbn [Z.eqb].
    unfold texture2D. rewrite Htu'. reflexivity.
  - intros n Hn. rewrite Ptex by (rewrite Rnext; exact Hn). rewrite Rtex. reflexivity.
Qed.

Lemma passthrough_is_identity_witness :
  v4eq (canvasPixel (fun _ => 0) (fun _ => 0) (fun _ => 0)
          (gl (after (render (Sample.twoTone 4 4) Sample.options None None None
                        Sample.afterPersonFrame))) (Vec2 (1 # 4) (1 # 4)))
       (Vec4 1 0 0 1).
Proof.
  destruct (passthrough_is_identity (Sample.twoTone 4 4) Sample.options None None None
              Sample.afterPersonFrame) as (_ & Hpixel & _).
  - apply reach_render, reach_constructor.
  - vm_compute. reflexivity.
  - vm_compute. reflexivity.
  - left. reflexivity.
  - apply (Hpixel (fun p => match Qle_bool (vx p) (1 # 2) as b
                            return v4eq (opaque (rgba8 (if b then Vec4 1 0 0 1
                                                        else Vec4 0 0 1 1)))
                                        (if b then Vec4 1 0 0 1 else Vec4 0 0 1 1)
                            with
                            | true => conj eq_refl (conj eq_refl (conj eq_refl eq_refl))
                            | false => conj eq_refl (conj eq_refl (conj eq_refl eq_refl))
                            end)).
Defined.

End Passthrough.

(** ** Resolution changes *)

Section Resolution.

(** C8 (amended). A render call that runs the state-update pass, whatever
    the size of its frame, gives the canvas the frame's size and
    reallocates the write buffer alone at that size.  The read buffer keeps
    its name, its size and its content, and that content, not an
    all-background mask, is the history the state-update pass consumes. *)
Theorem write_buffer_reallocated_history_kept vf opts category confidence selfie this :
  reachable this -> running this = true -> contextLost (gl this) = false ->
  returned (render vf opts (Some category) (Some confidence) selfie this) = true ->
  let this' := after (render vf opts (Some category) (Some confidence) selfie this) in
  exists nr nw previous tu,
    element (storedStateTextures this) (currentStateIndex this) = Some (Owned nr)
    /\ element (storedStateTextures this) (Z.rem (currentStateIndex this + 1) 2)
       = Some (Owned nw)
    /\ storedStateTextures this' = storedStateTextures this
    /\ width (canvas (gl this')) = displayWidth vf
    /\ height (canvas (gl this')) = displayHeight vf
    /\ textures (gl this) !! nr = Some previous
    /\ textures (gl this') !! nr = Some previous
    /\ textures (gl this') !! nw
       = Some {| tex_width := displayWidth vf; tex_height := displayHeight vf;
                 tex_image := fun w =>
                   rgba8
                     (StateUpdateShader.main tu
                        (stateUpdateUniforms (displayWidth vf) (displayHeight vf)
                           opts selfie)
                        (v_texCoord w)) |}
    /\ tu 2%Z = tex_image previous.
Proof.
  intros Hreach Hrun Hlive Hret.
  pose proof (reachable_wf this Hreach) as W.
  destruct (render_returns vf opts _ _ selfie this Hrun Hret) as [this1 Hupd].
  destruct (render_effect_live vf opts category confidence selfie
              this this1 W Hrun Hlive Hupd)
    as (nr & nw & previous & this2 & Hr & Hw & Hne & Epr & Hrender & W2 & B1 & E2).
  destruct E2
    as (Est & _ & _ & _ & _ & _ & Er & (tu & Ew & _ & _ & Hprev) & _ & Hcw & Hch & _).
  destruct B1 as (Bst & _ & _ & _ & Bcanvas & _).
  pose proof (resized_fields vf this)
    as (Rst & _ & _ & _ & _ & _ & _ & _ & _ & _ & _ & _ & Rw & Rh).
  exists nr, nw, previous, tu. cbv zeta. rewrite Hrender.
  cbn [after gl withState storedStateTextures].
  rewrite Hcw, Hch, Bcanvas, Rw, Rh, Est, Bst, Rst.
  repeat split; assumption.
Qed.

Lemma write_buffer_reallocated_history_kept_witness :
  exists nr previous,
    element (storedStateTextures Sample.afterPersonFrame)
      (currentStateIndex Sample.afterPersonFrame) = Some (Owned nr)
    /\ textures (gl Sample.afterPersonFrame) !! nr = Some previous
    /\ textures (gl Sample.afterResizedFrame) !! nr = Some previous.
Proof.
  destruct (write_buffer_reallocated_history_kept (Sample.frame 4 4) Sample.options
              (Foreign (Sample.mask 0)) (Foreign (Sample.mask 0)) None
              Sample.afterPersonFrame)
    as (nr & nw & previous & tu & Hr & _ & _ & _ & _ & Hbefore & Hafter & _).
  - apply reach_render, reach_constructor.
  - vm_compute. reflexivity.
  - vm_compute. reflexivity.
  - vm_compute. reflexivity.
  - exists nr, previous. split; [exact Hr|]. split; [exact Hbefore | exact Hafter].
Defined.

(** C8 as stated fails.  After a 2x2 frame whose mask says person, a 4x4
    frame arrives whose mask says background with confidence 0.  The read
    buffer is still the 2x2 texture holding 179/255 (0.7 as an 8-bit
    value); it is not reallocated and not reset to the all-background
    mask, and the new mask value is 179/255 where a reset history would
    give 0. *)
Lemma resolution_change_keeps_read_buffer :
  let this := Sample.afterPersonFrame in
  let vf := Sample.frame 4 4 in
  let this' := Sample.afterResizedFrame in
  (width (canvas (gl this)), height (canvas (gl this))) = (2, 2)%Z
  /\ (displayWidth vf, displayHeight vf) = (4, 4)%Z
  /\ reachesStateUpdate vf Sample.options (Some (Foreign (Sample.mask 0)))
       (Some (Foreign (Sample.mask 0))) this = true
  /\ element (storedStateTextures this) (currentStateIndex this)
     = Some (Owned 2%positive)
  /\ element (storedStateTextures this) (Z.rem (currentStateIndex this + 1) 2)
     = Some (Owned 1%positive)
  /\ (exists previous,
        textures (gl this') !! 2%positive = Some previous
        /\ (tex_width previous, tex_height previous) = (2, 2)%Z
        /\ cr (tex_image previous (Vec2 0.5 0.5)) == 179 # 255)
  /\ (exists written,
        textures (gl this') !! 1%positive = Some written
        /\ (tex_width written, tex_height written) = (4, 4)%Z
        /\ cr (tex_image written (Vec2 0.5 0.5)) == 179 # 255
        /\ Spec.maskValue false 0.7 0.25 0.85 6.0 (Vec2 4 4)
              (tex_image (Sample.mask 0)) (tex_image (Sample.mask 0))
              (fun _ => Vec4 0 0 0 0) (Vec2 0.5 0.5) == 0).
Proof.
  cbv zeta. split; [vm_compute; reflexivity|]. split; [reflexivity|].
  split; [vm_compute; reflexivity|].
  split; [vm_compute; reflexivity|]. split; [vm_compute; reflexivity|].
  split.
  - eexists. split; [vm_compute; reflexivity|].
    split; [vm_compute; reflexivity|]. vm_compute. reflexivity.
  - eexists. split; [vm_compute; reflexivity|].
    split; [vm_compute; reflexivity|]. split; [vm_compute; reflexivity|].
    vm_compute. reflexivity.
Qed.

End Resolution.

(** ** The ping-pong index *)

Section PingPong.

(** The index and the draw log after any render call. *)
Lemma render_index vf opts cat conf selfie this :
  wellFormed this ->
  let this' := after (render vf opts cat conf selfie this) in
  currentStateIndex this'
  = (if reachesStateUpdate vf opts cat conf this
     then Z.rem (currentStateIndex this + 1) 2
     else currentStateIndex this)
  /\ (contextLost (gl this) = false ->
      statePasses (gl this')
      = if reachesStateUpdate vf opts cat conf this
        then S (statePasses (gl this)) else statePasses (gl this)).
Proof.
  intros W. cbv zeta. unfold reachesStateUpdate.
  destruct (running this) eqn:Hrun; cbn [andb].
  2: { rewrite render_closed by exact Hrun. split; reflexivity. }
  pose proof (resized_wf vf this W) as WR.
  pose proof (resized_fields vf this)
    as (Rst & Rrun & Ridx & Rinfo & Ract & Rlost & Rtex & Rnext & Rfb & Rdraws & _).
  assert (Hpt : currentStateIndex (after (passthrough vf (resized vf this)))
                = currentStateIndex this
                /\ (contextLost (gl this) = false ->
                    statePasses (gl (after (passthrough vf (resized vf this))))
                    = statePasses (gl this))).
  { destruct (contextLost (gl (resized vf this))) eqn:Hl.
    - rewrite passthrough_lost by exact Hl. cbn [after]. split; [exact Ridx|].
      intros Hlive. congruence.
    - destruct (passthrough_run vf (resized vf this) WR Hl) as (this' & -> & W' & P).
      destruct P as (Pst & Prun & Pidx & Pinfo & Pact & Plost & Ptex & Pdraws & _).
      cbn [after]. split; [congruence|]. intros _.
      unfold statePasses. rewrite Pdraws, Rdraws. reflexivity. }
  destruct cat as [cat|]; [|rewrite render_running by exact Hrun; exact Hpt].
  destruct conf as [conf|]; [|rewrite render_running by exact Hrun; exact Hpt].
  cbn [isSome andb].
  destruct (update_frame (backgroundSource opts) (resized vf this) WR) as [W1 B1].
  rewrite render_effect_outcome by exact Hrun.
  destruct (updateBackgroundIfNeeded (backgroundSource opts) (resized vf this))
    as [[] this1|e this1]; cbn [after returned] in W1, B1 |- *;
    pose proof B1 as (Bst & Brun & Bidx & Blost & Bcanvas & Bdraws & Btex).
  2: { split; [congruence|]. intros _. unfold statePasses. congruence. }
  destruct (contextLost (gl this1)) eqn:Hl.
  - rewrite (passes_outcome _ _ _ _ _ _ _ _ _ _ _ (passes_lost _ _ _ _ _ _ _ _ _ Hl)).
    cbn [after assign currentStateIndex withState].
    split; [reflexivity|]. intros Hlive. congruence.
  - destruct (state_pair this W Hrun) as (nr & nw & Hr & Hw & Hne & Inr & Inw).
    destruct (wf_live this1 W1 nr) as [txr Etr]; [rewrite Bst, Rst; exact Inr|].
    rewrite Hr, Hw.
    destruct (passes_run vf opts cat conf selfie (Z.rem (currentStateIndex this + 1) 2)
                this1 nr nw txr W1 Hl) as (this2 & Hpass & W2 & E2);
      try assumption; try (rewrite Bst, Rst; assumption).
    rewrite (passes_outcome _ _ _ _ _ _ _ _ _ _ _ Hpass).
    destruct E2 as (_ & _ & _ & _ & _ & _ & _ & _ & Edraws & _).
    cbn [after assign currentStateIndex withState gl].
    split; [reflexivity|]. intros _.
    unfold statePasses. rewrite Edraws, Bdraws, Rdraws. reflexivity.
Qed.

(** C6. In every reachable renderer state the read index is 0 or 1 and
    differs from the write index, and while the renderer runs the two
    indices select two different textures.  A render call that runs the
    state-update pass moves the index to the write index and adds exactly
    one state-update draw; any other render call (without both masks, after
    close, or stopped by the background update) leaves the index and the
    number of state-update draws as they were; so does [close]. *)
Theorem ping_pong_indices this :
  reachable this ->
  let read := currentStateIndex this in
  let write := Z.rem (currentStateIndex this + 1) 2 in
  (read = 0%Z \/ read = 1%Z)
  /\ read <> write
  /\ (running this = true ->
      element (storedStateTextures this) read
      <> element (storedStateTextures this) write)
  /\ (forall vf opts cat conf selfie,
        let this' := after (render vf opts cat conf selfie this) in
        currentStateIndex this'
        = (if reachesStateUpdate vf opts cat conf this then write else read)
        /\ (contextLost (gl this) = false ->
            statePasses (gl this')
            = if reachesStateUpdate vf opts cat conf this
              then S (statePasses (gl this)) else statePasses (gl this)))
  /\ (forall vf opts selfie,
        reachesStateUpdate vf opts None None this = false
        /\ (running this = false ->
            forall cat conf, reachesStateUpdate vf opts cat conf this = false)
        /\ currentStateIndex (after (render vf opts None None selfie this)) = read)
  /\ currentStateIndex (after (close this)) = read.
Proof.
  intros Hreach. pose proof (reachable_wf this Hreach) as W. cbv zeta.
  destruct (next_index _ (wf_index this W)) as [Hnext Hne].
  split; [exact (wf_index this W)|]. split; [congruence|]. split; [|split; [|split]].
  - intros Hrun. destruct (state_pair this W Hrun) as (nr & nw & Hr & Hw & Hnrw & _).
    rewrite Hr, Hw. congruence.
  - intros vf opts cat conf selfie. exact (render_index vf opts cat conf selfie this W).
  - intros vf opts selfie.
    assert (E : reachesStateUpdate vf opts None None this = false).
    { unfold reachesStateUpdate. destruct (running this); reflexivity. }
    split; [exact E|]. split.
    + intros Hrun cat conf. unfold reachesStateUpdate. rewrite Hrun. reflexivity.
    + destruct (render_index vf opts None None selfie this W) as [Hidx _].
      rewrite Hidx, E. reflexivity.
  - apply close_spec; exact W.
Qed.

Lemma ping_pong_indices_witness :
  currentStateIndex Sample.fresh <> Z.rem (currentStateIndex Sample.fresh + 1) 2
  /\ currentStateIndex Sample.afterPersonFrame = 1%Z
  /\ statePasses (gl Sample.afterPersonFrame) = 1%nat.
Proof.
  destruct (ping_pong_indices Sample.fresh (reach_constructor Sample.canvas))
    as (_ & Hne & _ & Hrender & _).
  split; [exact Hne|].
  destruct (Hrender (Sample.frame 2 2) Sample.options (Some (Foreign (Sample.mask 1)))
              (Some (Foreign (Sample.mask 0))) None) as [Hidx Hdraws].
  unfold Sample.afterPersonFrame. rewrite Hidx, Hdraws by reflexivity.
  split; vm_compute; reflexivity.
Defined.

End PingPong.

(** ** The mask over a run of render calls *)

Section MaskRuns.

Lemma update_returns src this :
  mediaMatches src = true ->
  exists this1, updateBackgroundIfNeeded src this = Normal tt this1.
Proof.
  intros Hmedia. destruct (cacheHit src this) eqn:Hit.
  - exists this. apply update_hit, Hit.
  - destruct (update_miss src this Hmedia Hit) as (this1 & Hupd & _). eauto.
Qed.




(** C4.  For every configuration (any smoothing factor, smoothstep edges
    and state blur radius), every input masks and every pixel, the
    smoothed mask value that a state-update pass leaves in the write
    buffer, which the next frame reads as the current mask, lies within
    [0, 1]. *)
Theorem mask_value_in_unit_interval vf opts category confidence selfie this :
  reachable this -> running this = true -> contextLost (gl this) = false ->
  returned (render vf opts (Some category) (Some confidence) selfie this) = true ->
  exists nw written,
    element (storedStateTextures this) (Z.rem (currentStateIndex this + 1) 2)
    = Some (Owned nw)
    /\ textures (gl (after (render vf opts (Some category) (Some confidence)
                              selfie this))) !! nw = Some written
    /\ Scenario.currentMask
         (after (render vf opts (Some category) (Some confidence) selfie this))
       = Some written
    /\ forall w, 0 <= cr (tex_image written w) <= 1.
Proof.
  intros Hreach Hrun Hlive Hret.
  pose proof (reachable_wf this Hreach) as W.
  destruct (render_returns vf opts _ _ selfie this Hrun Hret) as [this1 Hupd].
  destruct (render_effect_live vf opts category confidence selfie
              this this1 W Hrun Hlive Hupd)
    as (nr & nw & previous & this2 & Hr & Hw & Hne & Epr & Hrender & W2 & B1 & E2).
  pose proof (resized_fields vf this) as (Rst & _).
  destruct B1 as (Bst & _).
  destruct E2 as (Est & _ & _ & _ & _ & _ & _ & (tu & Ew & _) & _).
  exists nw. eexists.
  split; [exact Hw|]. rewrite Hrender. cbn [after gl withState].
  split; [exact Ew|]. split.
  - unfold Scenario.currentMask, storedTexture.
    cbn [withState storedStateTextures currentStateIndex gl].
    rewrite Est, Bst, Rst, Hw. exact Ew.
  - intros w. cbn [tex_image rgba8 cr]. apply stored_unit.
Qed.

Lemma mask_value_in_unit_interval_witness :
  exists nw written,
    element (storedStateTextures Sample.fresh)
      (Z.rem (currentStateIndex Sample.fresh + 1) 2) = Some (Owned nw)
    /\ textures (gl (after (render (Sample.frame 2 2) Sample.oversmoothedOptions
                              (Some (Foreign (Sample.mask 1)))
                              (Some (Foreign (Sample.mask 0))) None Sample.fresh)))
       !! nw = Some written
    /\ Scenario.currentMask
         (after (render (Sample.frame 2 2) Sample.oversmoothedOptions
                   (Some (Foreign (Sample.mask 1)))
                   (Some (Foreign (Sample.mask 0))) None Sample.fresh))
       = Some written
    /\ forall w, 0 <= cr (tex_image written w) <= 1.
Proof.
  apply (mask_value_in_unit_interval (Sample.frame 2 2) Sample.oversmoothedOptions
           (Foreign (Sample.mask 1)) (Foreign (Sample.mask 0)) None Sample.fresh).
  - apply reach_constructor.
  - reflexivity.
  - reflexivity.
  - vm_compute. reflexivity.
Defined.




End MaskRuns.

(** ** Further properties of the renderer and its shaders *)

Section ShaderValues.

Lemma between_ends (a c p : Q) :
  0 <= a <= 1 -> Qmin c p <= a * c + (1 - a) * p <= Qmax c p.
Proof.
  intros Ha.
  destruct (Qlt_le_dec c p) as [H|H].
  - rewrite (Q.min_l c p), (Q.max_r c p) by lra. split; nra.
  - rewrite (Q.min_r c p), (Q.max_l c p) by lra. split; nra.
Qed.

(** X1.  With the smoothing factor in [0, 1], the value the state-update
    shader computes at a pixel lies between the blurred previous mask
    value and the category it blends towards (the raw category after the
    polarity switch and the foreground pinning): the mask moves towards
    the category, never past it and never away from it. *)
Theorem mask_between_history_and_category tu u t :
  0 <= StateUpdateShader.u_smoothingFactor u <= 1 ->
  let category :=
    Spec.category (Signal.flag u) (cr (tu (StateUpdateShader.u_categoryTexture u) t)) in
  let history :=
    StateUpdateShader.sampleBlurred tu u (StateUpdateShader.u_prevStateTexture u)
      (Vec2 (vx t) (1 - vy t)) (StateUpdateShader.u_stateBlurRadius u) in
  Qmin category history <= cr (StateUpdateShader.main tu u t) <= Qmax category history.
Proof.
  intros Hs. cbv zeta. unfold StateUpdateShader.main. cbn [cr].
  rewrite newCategoryValue_spec. cbv zeta. unfold texture2D.
  apply between_ends. apply spec_alpha_unit. exact Hs.
Qed.

Lemma mask_between_history_and_category_witness :
  Qmin 1 0 <= cr (StateUpdateShader.main Sample.personUnits Signal.defaults (Vec2 0.5 0.5))
  <= Qmax 1 0.
Proof.
  pose proof (mask_between_history_and_category Sample.personUnits Signal.defaults
                (Vec2 0.5 0.5)) as H.
  cbv zeta in H.
  assert (Hs : 0 <= StateUpdateShader.u_smoothingFactor Signal.defaults <= 1)
    by (split; vm_compute; discriminate).
  specialize (H Hs).
  assert (Ec : Spec.category (Signal.flag Signal.defaults)
                 (cr (Sample.personUnits
                        (StateUpdateShader.u_categoryTexture Signal.defaults)
                        (Vec2 0.5 0.5))) = 1) by reflexivity.
  rewrite Ec in H.
  assert (Eh : StateUpdateShader.sampleBlurred Sample.personUnits Signal.defaults
                 (StateUpdateShader.u_prevStateTexture Signal.defaults)
                 (Vec2 (vx (Vec2 0.5 0.5)) (1 - vy (Vec2 0.5 0.5)))
                 (StateUpdateShader.u_stateBlurRadius Signal.defaults) == 0)
    by (vm_compute; reflexivity).
  rewrite Eh in H. exact H.
Defined.

Lemma smoothstep_above (e0 e1 x : Q) : e0 < e1 -> e1 <= x -> smoothstep e0 e1 x == 1.
Proof.
  intros He Hx. rewrite smoothstep_formula by exact He. unfold clamp.
  assert (H1 : 1 <= (x - e0) / (e1 - e0)).
  { apply Qle_shift_div_l; lra. }
  rewrite (Q.max_l _ 0) by lra. rewrite Q.min_r by lra. ring.
Qed.

Lemma smoothstep_below (e0 e1 x : Q) : e0 < e1 -> x <= e0 -> smoothstep e0 e1 x == 0.
Proof.
  intros He Hx. rewrite smoothstep_formula by exact He. unfold clamp.
  assert (H1 : (x - e0) / (e1 - e0) <= 0).
  { apply Qle_shift_div_r; lra. }
  rewrite (Q.max_r _ 0) by lra. rewrite Q.min_l by lra. ring.
Qed.

Lemma mix4_one (x y : vec4) (a : Q) : a == 1 -> v4eq (mix4 x y a) y.
Proof. intros Ha. unfold v4eq, mix4, mix. cbn. rewrite Ha. repeat split; ring. Qed.

Lemma mix4_zero (x y : vec4) (a : Q) : a == 0 -> v4eq (mix4 x y a) x.
Proof. intros Ha. unfold v4eq, mix4, mix. cbn. rewrite Ha. repeat split; ring. Qed.

(** X2.  In virtual-background mode (effects enabled, background blur
    off) with [vbgSmoothstepMin < vbgSmoothstepMax], a pixel whose blurred
    mask value reaches [vbgSmoothstepMax] gets the frame's pixel
    unchanged, and a pixel whose blurred mask value does not exceed
    [vbgSmoothstepMin] gets the background at the cover coordinate. *)
Theorem virtual_background_extremes glsl_exp glsl_cos glsl_sin tu u t :
  (BlendShader.u_enabled u =? 0)%Z = false ->
  Qgtb (BlendShader.u_bgBlur u) 0 && Qgtb (BlendShader.u_bgBlurRadius u) 0 = false ->
  BlendShader.u_vbgSmoothstepMin u < BlendShader.u_vbgSmoothstepMax u ->
  let mask :=
    BlendShader.blurredState tu u (Vec2 (vx t) (1 - vy t))
      (v2recip (BlendShader.u_canvasDimensions u)) in
  (BlendShader.u_vbgSmoothstepMax u <= mask ->
   v4eq (BlendShader.main glsl_exp glsl_cos glsl_sin tu u t)
        (tu (BlendShader.u_frameTexture u) t))
  /\ (mask <= BlendShader.u_vbgSmoothstepMin u ->
      v4eq (BlendShader.main glsl_exp glsl_cos glsl_sin tu u t)
           (tu (BlendShader.u_backgroundTexture u) (BlendShader.bgTexCoord u t))).
Proof.
  intros He Hb Hlt. cbv zeta.
  rewrite (virtual_background_sample _ _ _ tu u t He Hb). unfold texture2D.
  split; intros Hm.
  - apply mix4_one, smoothstep_above; assumption.
  - apply mix4_zero, smoothstep_below; assumption.
Qed.

Lemma virtual_background_extremes_witness :
  v4eq (BlendShader.main (fun _ => 0) (fun _ => 0) (fun _ => 0)
          Sample.personUnits Sample.widescreen (Vec2 0.5 0.5))
       (Sample.personUnits (BlendShader.u_backgroundTexture Sample.widescreen)
          (BlendShader.bgTexCoord Sample.widescreen (Vec2 0.5 0.5))).
Proof.
  destruct (virtual_background_extremes (fun _ => 0) (fun _ => 0) (fun _ => 0)
              Sample.personUnits Sample.widescreen (Vec2 0.5 0.5)) as [_ Hlow].
  - reflexivity.
  - reflexivity.
  - reflexivity.
  - apply Hlow. vm_compute. discriminate.
Defined.

End ShaderValues.

(** ** Further properties of the renderer's methods *)

Section Methods.

Lemma close_effects this :
  wellFormed this -> running this = true ->
  exists this',
    close this = Normal tt this'
    /\ storedStateTextures this' = []
    /\ backgroundRenderInfo this' = None
    /\ activeBackgroundSourceIdentifier this' = None
    /\ (contextLost (gl this) = false -> drawing (canvas (gl this')) = Cleared).
Proof.
  intros W Hrun. unfold close. rewrite bind_getThis. rewrite Hrun. cbn [negb].
  destruct (wf_pair this W Hrun) as (a & b & Hst & Hab).
  assert (Hinfo : match backgroundRenderInfo this with
          | Some i => texture i = Invalidated \/ exists t, texture i = Owned t
          | None => True end).
  { destruct (backgroundRenderInfo this) as [i|] eqn:E; [|exact I].
    destruct (wf_background this W i E) as [[Ht _]|(t & Ht & _)]; eauto. }
  pose proof (wf_framebuffer this W) as W2.
  destruct this as [g st run idx info act]. destruct g.
  cbn in W2, Hrun, Hst, Hinfo. subst.
  destruct contextLost0; destruct program0 as [[|]|];
    (destruct info as [i|];
     [destruct Hinfo as [Ht|(t & Ht)] |]);
    do 7 step; cbn [fold_right];
    repeat first
      [ step; rewrite ?Ht; glcbn
      | match goal with
        | |- context [match ?m !! ?k with _ => _ end] => destruct (m !! k) eqn:?
        end; glcbn ].
  all: unfold assign; glcbn.
  all: eexists; split; [reflexivity|].
  all: cbn [gl storedStateTextures backgroundRenderInfo
            activeBackgroundSourceIdentifier contextLost canvas drawing].
  all: repeat split; first [reflexivity | intros H; discriminate H].
Qed.

(** X3.  [close] returns and leaves the renderer stopped, with the state
    index and the draw count as they were; a render call on a closed
    renderer and a second [close] do nothing.  Closing a running renderer
    drops both mask buffers and the background, and on a live context
    clears the canvas, which then shows opaque black. *)
Theorem closed_renderer_is_inert vf opts cat conf selfie this :
  reachable this ->
  returned (close this) = true
  /\ running (after (close this)) = false
  /\ currentStateIndex (after (close this)) = currentStateIndex this
  /\ draws (gl (after (close this))) = draws (gl this)
  /\ render vf opts cat conf selfie (after (close this))
     = Normal tt (after (close this))
  /\ close (after (close this)) = Normal tt (after (close this))
  /\ (running this = true ->
      storedStateTextures (after (close this)) = []
      /\ backgroundRenderInfo (after (close this)) = None
      /\ activeBackgroundSourceIdentifier (after (close this)) = None
      /\ (contextLost (gl this) = false ->
          forall glsl_exp glsl_cos glsl_sin w,
            canvasPixel glsl_exp glsl_cos glsl_sin (gl (after (close this))) w
            = Vec4 0 0 0 1)).
Proof.
  intros Hreach. pose proof (reachable_wf this Hreach) as W.
  destruct (close_spec this W) as (W' & Hidx & Hstopped & Hdraws).
  assert (Hret : returned (close this) = true).
  { destruct (running this) eqn:Hrun.
    - destruct (close_effects this W Hrun) as (this' & -> & _). reflexivity.
    - unfold close. rewrite bind_getThis, Hrun. reflexivity. }
  split; [exact Hret|]. split; [exact Hstopped|]. split; [exact Hidx|].
  split; [exact Hdraws|].
  split; [apply render_closed, Hstopped|].
  split.
  { unfold close at 1. rewrite bind_getThis, Hstopped. reflexivity. }
  intros Hrun.
  destruct (close_effects this W Hrun) as (this' & Hclose & Hst & Hinfo & Hact & Hclear).
  rewrite Hclose in W' |- *. cbn [after] in W' |- *.
  split; [exact Hst|]. split; [exact Hinfo|]. split; [exact Hact|].
  intros Hlive glsl_exp glsl_cos glsl_sin w.
  unfold canvasPixel, drawingBuffer.
  rewrite (wf_opaque this' W'), (Hclear Hlive). reflexivity.
Qed.

Lemma closed_renderer_is_inert_witness :
  running (after (close Sample.afterPersonFrame)) = false
  /\ render (Sample.frame 2 2) Sample.options
       (Some (Foreign (Sample.mask 1))) (Some (Foreign (Sample.mask 0))) None
       (after (close Sample.afterPersonFrame))
     = Normal tt (after (close Sample.afterPersonFrame))
  /\ canvasPixel (fun _ => 0) (fun _ => 0) (fun _ => 0)
       (gl (after (close Sample.afterPersonFrame))) (Vec2 (1 # 2) (1 # 2))
     = Vec4 0 0 0 1.
Proof.
  destruct (closed_renderer_is_inert (Sample.frame 2 2) Sample.options
              (Some (Foreign (Sample.mask 1))) (Some (Foreign (Sample.mask 0))) None
              Sample.afterPersonFrame)
    as (_ & Hstopped & _ & _ & Hrender & _ & Hrunning).
  - apply reach_render, reach_constructor.
  - split; [exact Hstopped|]. split; [exact Hrender|].
    destruct Hrunning as (_ & _ & _ & Hclear); [vm_compute; reflexivity|].
    apply Hclear. vm_compute. reflexivity.
Defined.

(** X4.  On a lost context a render call with both mask textures, whose
    background request carries the media its type needs, still returns
    and still advances the state index, although nothing is drawn and the
    mask buffers keep their content: the current mask after the call is
    the buffer that was the write buffer before it. *)
Theorem lost_context_frame vf opts cat conf selfie this :
  reachable this -> running this = true -> contextLost (gl this) = true ->
  mediaMatches (backgroundSource opts) = true ->
  returned (render vf opts (Some cat) (Some conf) selfie this) = true
  /\ currentStateIndex (after (render vf opts (Some cat) (Some conf) selfie this))
     = Z.rem (currentStateIndex this + 1) 2
  /\ draws (gl (after (render vf opts (Some cat) (Some conf) selfie this)))
     = draws (gl this)
  /\ canvas (gl (after (render vf opts (Some cat) (Some conf) selfie this)))
     = canvas (gl (resized vf this))
  /\ Scenario.currentMask (after (render vf opts (Some cat) (Some conf) selfie this))
     = storedTexture this (Z.rem (currentStateIndex this + 1) 2).
Proof.
  intros Hreach Hrun Hlost Hmedia.
  pose proof (reachable_wf this Hreach) as W.
  pose proof (resized_wf vf this W) as WR.
  pose proof (resized_fields vf this)
    as (Rst & Rrun & Ridx & Rinfo & Ract & Rlost & Rtex & Rnext & Rfb & Rdraws & _).
  destruct (update_returns (backgroundSource opts) (resized vf this) Hmedia)
    as [this1 Hupd].
  destruct (update_frame (backgroundSource opts) (resized vf this) WR) as [W1 B1].
  rewrite Hupd in W1, B1. cbn [after] in W1, B1.
  destruct B1 as (Bst & Brun & Bidx & Blost & Bcanvas & Bdraws & Btex).
  assert (Hl : contextLost (gl this1) = true) by congruence.
  rewrite render_effect_outcome by exact Hrun. rewrite Hupd.
  rewrite (passes_outcome _ _ _ _ _ _ _ _ _ _ _ (passes_lost _ _ _ _ _ _ _ _ _ Hl)).
  cbn [assign after returned withState currentStateIndex gl].
  split; [reflexivity|]. split; [reflexivity|].
  split; [congruence|].
  split; [exact Bcanvas|].
  unfold Scenario.currentMask, storedTexture.
  cbn [withState storedStateTextures currentStateIndex gl].
  rewrite Bst, Rst.
  destruct (state_pair this W Hrun) as (nr & nw & Hr & Hw & Hne & Inr & Inw).
  rewrite Hw. rewrite Btex by (rewrite Rst; exact Inw). rewrite Rtex. reflexivity.
Qed.

Lemma lost_context_frame_witness :
  currentStateIndex
    (after (render (Sample.frame 2 2) Sample.options
              (Some (Foreign (Sample.mask 1))) (Some (Foreign (Sample.mask 0))) None
              (loseContext Sample.afterPersonFrame)))
  = Z.rem (currentStateIndex (loseContext Sample.afterPersonFrame) + 1) 2
  /\ draws (gl (after (render (Sample.frame 2 2) Sample.options
                         (Some (Foreign (Sample.mask 1)))
                         (Some (Foreign (Sample.mask 0))) None
                         (loseContext Sample.afterPersonFrame))))
     = draws (gl (loseContext Sample.afterPersonFrame)).
Proof.
  destruct (lost_context_frame (Sample.frame 2 2) Sample.options
              (Foreign (Sample.mask 1)) (Foreign (Sample.mask 0)) None
              (loseContext Sample.afterPersonFrame))
    as (_ & Hidx & Hdraws & _).
  - apply reach_loseContext, reach_render, reach_constructor.
  - vm_compute. reflexivity.
  - reflexivity.
  - reflexivity.
  - split; [exact Hidx | exact Hdraws].
Defined.

(** X5.  The background update, whether it returns or throws, touches
    nothing but the background: the mask buffers and their content, the
    running flag, the state index, the canvas and the draw count are left
    as they were, and the renderer stays well formed. *)
Theorem background_update_leaves_masks src this :
  reachable this ->
  wellFormed (after (updateBackgroundIfNeeded src this))
  /\ storedStateTextures (after (updateBackgroundIfNeeded src this))
     = storedStateTextures this
  /\ running (after (updateBackgroundIfNeeded src this)) = running this
  /\ currentStateIndex (after (updateBackgroundIfNeeded src this))
     = currentStateIndex this
  /\ contextLost (gl (after (updateBackgroundIfNeeded src this)))
     = contextLost (gl this)
  /\ canvas (gl (after (updateBackgroundIfNeeded src this))) = canvas (gl this)
  /\ draws (gl (after (updateBackgroundIfNeeded src this))) = draws (gl this)
  /\ (forall n, In (Some (Owned n)) (storedStateTextures this) ->
        textures (gl (after (updateBackgroundIfNeeded src this))) !! n
        = textures (gl this) !! n).
Proof.
  intros Hreach.
  destruct (update_frame src this (reachable_wf this Hreach)) as [W' B].
  split; [exact W' | exact B].
Qed.

Lemma background_update_leaves_masks_witness :
  storedStateTextures
    (after (updateBackgroundIfNeeded (Some Sample.imageWithoutMedia)
              Sample.afterPersonFrame))
  = storedStateTextures Sample.afterPersonFrame
  /\ currentStateIndex
       (after (updateBackgroundIfNeeded (Some Sample.imageWithoutMedia)
                 Sample.afterPersonFrame))
     = currentStateIndex Sample.afterPersonFrame.
Proof.
  destruct (background_update_leaves_masks (Some Sample.imageWithoutMedia)
              Sample.afterPersonFrame) as (_ & Hst & _ & Hidx & _).
  - apply reach_render, reach_constructor.
  - split; [exact Hst | exact Hidx].
Defined.

Lemma cacheHit_resized src vf this :
  cacheHit src (resized vf this) = cacheHit src this.
Proof.
  pose proof (resized_fields vf this) as (_ & _ & _ & Rinfo & Ract & _).
  unfold cacheHit. rewrite Rinfo, Ract. reflexivity.
Qed.

(** X6.  An effect frame on a live context whose background is already
    the active one issues exactly two draws, the state update and then
    the blend, and creates and deletes exactly one texture (the frame's):
    rendering does not accumulate textures. *)
Theorem effect_frame_texture_balance vf opts cat conf selfie this :
  reachable this -> running this = true -> contextLost (gl this) = false ->
  cacheHit (backgroundSource opts) this = true ->
  returned (render vf opts (Some cat) (Some conf) selfie this) = true
  /\ draws (gl (after (render vf opts (Some cat) (Some conf) selfie this)))
     = BlendProgram :: StateUpdateProgram :: draws (gl this)
  /\ texturesCreated (gl (after (render vf opts (Some cat) (Some conf) selfie this)))
     = S (texturesCreated (gl this))
  /\ texturesDeleted (gl (after (render vf opts (Some cat) (Some conf) selfie this)))
     = S (texturesDeleted (gl this))
  /\ backgroundRenderInfo (after (render vf opts (Some cat) (Some conf) selfie this))
     = backgroundRenderInfo this.
Proof.
  intros Hreach Hrun Hlive Hhit.
  pose proof (reachable_wf this Hreach) as W.
  pose proof (resized_fields vf this)
    as (Rst & Rrun & Ridx & Rinfo & Ract & Rlost & Rtex & Rnext & Rfb & Rdraws
        & Rcreated & Rdeleted & _).
  assert (Hupd : updateBackgroundIfNeeded (backgroundSource opts) (resized vf this)
                 = Normal tt (resized vf this)).
  { apply update_hit. rewrite cacheHit_resized. exact Hhit. }
  destruct (render_effect_live vf opts cat conf selfie this (resized vf this)
              W Hrun Hlive Hupd)
    as (nr & nw & txr & this2 & Hr & Hw & Hne & Etr & Hrender & W2 & B1 & E2).
  destruct E2 as (_ & _ & _ & Einfo & _ & _ & _ & _ & Edraws & _ & _ & Ecreated & Edeleted).
  rewrite Hrender. cbn [after returned withState gl backgroundRenderInfo].
  split; [reflexivity|].
  split; [congruence|]. split; [congruence|]. split; congruence.
Qed.

Lemma effect_frame_texture_balance_witness :
  texturesCreated
    (gl (after (render (Sample.frame 2 2) Sample.options
                  (Some (Foreign (Sample.mask 1))) (Some (Foreign (Sample.mask 0)))
                  None Sample.afterPersonFrame)))
  = S (texturesCreated (gl Sample.afterPersonFrame))
  /\ texturesDeleted
       (gl (after (render (Sample.frame 2 2) Sample.options
                     (Some (Foreign (Sample.mask 1))) (Some (Foreign (Sample.mask 0)))
                     None Sample.afterPersonFrame)))
     = S (texturesDeleted (gl Sample.afterPersonFrame)).
Proof.
  destruct (effect_frame_texture_balance (Sample.frame 2 2) Sample.options
              (Foreign (Sample.mask 1)) (Foreign (Sample.mask 0)) None
              Sample.afterPersonFrame)
    as (_ & _ & Hcreated & Hdeleted & _).
  - apply reach_render, reach_constructor.
  - vm_compute. reflexivity.
  - vm_compute. reflexivity.
  - vm_compute. reflexivity.
  - split; [exact Hcreated | exact Hdeleted].
Defined.

(** X8.  A render call whose background request is of type image or
    video without media of that kind, and is not the active background,
    ends with the [TypeError] of the background update before anything
    is drawn: the state index is not advanced, no draw is issued, the
    mask buffers keep their content, and the renderer is left without
    background render info. *)
Theorem failed_background_aborts_frame vf opts cat conf selfie this :
  reachable this -> running this = true ->
  mediaMatches (backgroundSource opts) = false ->
  cacheHit (backgroundSource opts) this = false ->
  render vf opts (Some cat) (Some conf) selfie this
  = Throw "TypeError" (after (render vf opts (Some cat) (Some conf) selfie this))
  /\ currentStateIndex (after (render vf opts (Some cat) (Some conf) selfie this))
     = currentStateIndex this
  /\ draws (gl (after (render vf opts (Some cat) (Some conf) selfie this)))
     = draws (gl this)
  /\ backgroundRenderInfo (after (render vf opts (Some cat) (Some conf) selfie this))
     = None
  /\ (forall i,
        storedTexture (after (render vf opts (Some cat) (Some conf) selfie this)) i
        = storedTexture this i).
Proof.
  intros Hreach Hrun Hmedia Hmiss.
  pose proof (reachable_wf this Hreach) as W.
  pose proof (resized_wf vf this W) as WR.
  pose proof (resized_fields vf this)
    as (Rst & Rrun & Ridx & Rinfo & Ract & Rlost & Rtex & Rnext & Rfb & Rdraws & _).
  rewrite <- (cacheHit_resized _ vf) in Hmiss.
  destruct (update_throws (backgroundSource opts) (resized vf this) Hmedia Hmiss)
    as (this1 & Hupd & Hinfo).
  destruct (update_frame (backgroundSource opts) (resized vf this) WR) as [W1 B1].
  rewrite Hupd in W1, B1. cbn [after] in W1, B1.
  destruct B1 as (Bst & Brun & Bidx & Blost & Bcanvas & Bdraws & Btex).
  rewrite render_effect_outcome by exact Hrun. rewrite Hupd. cbn [after].
  split; [reflexivity|]. split; [congruence|]. split; [congruence|].
  split; [exact Hinfo|].
  intros i. unfold storedTexture. rewrite Bst, Rst.
  destruct (element (storedStateTextures this) i) as [[n|t|]|] eqn:Ei; try reflexivity.
  rewrite Btex, Rtex; [reflexivity|].
  rewrite Rst. clear - Ei. unfold element in Ei.
  destruct (i <? 0)%Z; [discriminate|].
  destruct (storedStateTextures this !! Z.to_nat i) as [x|] eqn:E; [|discriminate].
  subst x. apply list_elem_of_In. eapply list_elem_of_lookup_2. exact E.
Qed.

Lemma failed_background_aborts_frame_witness :
  returned (render (Sample.frame 2 2) Sample.brokenOptions
              (Some (Foreign (Sample.mask 1))) (Some (Foreign (Sample.mask 0))) None
              Sample.afterPersonFrame) = false
  /\ currentStateIndex
       (after (render (Sample.frame 2 2) Sample.brokenOptions
                 (Some (Foreign (Sample.mask 1))) (Some (Foreign (Sample.mask 0))) None
                 Sample.afterPersonFrame))
     = currentStateIndex Sample.afterPersonFrame.
Proof.
  destruct (failed_background_aborts_frame (Sample.frame 2 2) Sample.brokenOptions
              (Foreign (Sample.mask 1)) (Foreign (Sample.mask 0)) None
              Sample.afterPersonFrame)
    as (Hthrow & Hidx & _).
  - apply reach_render, reach_constructor.
  - vm_compute. reflexivity.
  - reflexivity.
  - vm_compute. reflexivity.
  - split; [rewrite Hthrow; reflexivity | exact Hidx].
Defined.

(** X7.  A newly constructed renderer runs with state index 0, without
    background, on a canvas of unchanged size; its two mask buffers are two
    distinct live 1x1 textures, both all-background: their red channel is
    0 everywhere. *)
Theorem constructor_initial_state cv :
  running (constructor cv) = true
  /\ currentStateIndex (constructor cv) = 0%Z
  /\ backgroundRenderInfo (constructor cv) = None
  /\ activeBackgroundSourceIdentifier (constructor cv) = None
  /\ (width (canvas (gl (constructor cv))), height (canvas (gl (constructor cv))))
     = (width cv, height cv)
  /\ draws (gl (constructor cv)) = []
  /\ contextLost (gl (constructor cv)) = false
  /\ (exists a b,
        storedStateTextures (constructor cv) = [Some (Owned a); Some (Owned b)]
        /\ a <> b)
  /\ (exists current other,
        storedTexture (constructor cv) 0 = Some current
        /\ storedTexture (constructor cv) 1 = Some other
        /\ (tex_width current, tex_height current) = (1, 1)%Z
        /\ (tex_width other, tex_height other) = (1, 1)%Z
        /\ forall p, cr (tex_image current p) == 0 /\ cr (tex_image other p) == 0).
Proof.
  do 7 (split; [vm_compute; reflexivity|]). split.
  - exists 1%positive, 2%positive. split; [reflexivity | discriminate].
  - do 2 eexists.
    split; [vm_compute; reflexivity|]. split; [vm_compute; reflexivity|].
    split; [reflexivity|]. split; [reflexivity|].
    intros p. split; vm_compute; reflexivity.
Qed.

End Methods.
